(** * tsdbclient: a shallow embedding of the Go package and its checked properties

    The development follows the package file by file:
    - [Escape]     the escaper / unescaper pair (strings.Replacer);
    - [GoTime]     the pieces of Go's [time] and [strconv] packages the client
                   calls ([time.ParseDuration], [time.Parse] for the one layout
                   the client uses, [strconv.ParseInt]);
    - [Taos]       taosclient.go: batch points, the HTTP write and query paths,
                   [Response.Error];
    - [TSDB]       the wrapper client: [QueryData], [WriteData] and the
                   subscription loop;
    - [Options]    options.go: the options, the environment and the defaults;
    - [Pkg]        the functions of the package over the shared client
                   ([ReadData], [QueryCount], [TableIfExists], [CreateTopic], ...).

    Go values of type [interface{}] are a tagged union, errors are values of an
    inductive type in which the package-level sentinel is a constructor of its
    own (Go compares errors by identity), a run-time panic is an outcome of
    its own next to a normal return. *)

From Stdlib Require Import ZArith Ascii String PrimFloat.
From stdpp Require Import base option list gmap strings.

Set Warnings "-register-all".
Local Open Scope string_scope.
Local Open Scope Z_scope.

(* ===================================================================== *)
(** ** Go values, errors and outcomes                                     *)
(* ===================================================================== *)

(** What [time.ParseDuration] reports; the three message shapes of the
    library, with the strings they quote. *)
Inductive DurationError :=
| InvalidDuration (orig : string)
| MissingUnit (orig : string)
| UnknownUnit (u orig : string).

(** Go [error] values.  [ErrNotExistsTable] is the package variable
    [var ErrNotExistsTable = errors.New("table does not exist")]: one value,
    compared by identity, hence a constructor different from every
    [errors_New] made later, whatever its text. *)
Inductive error :=
| ErrNotExistsTable
| errors_New (msg : string)
| fmt_Errorf (format : string) (args : list fmt_arg)
| time_error (e : DurationError)
| foreign_error (msg : string)
with fmt_arg :=
| ArgInt (z : Z)
| ArgString (s : string)
| ArgNil
| ArgError (e : error).

Definition arg_of_error (e : option error) : fmt_arg :=
  match e with
  | Some e => ArgError e
  | None => ArgNil
  end.

(** A dynamically typed Go value: what [encoding/json] puts in an
    [interface{}] when the decoder runs with [UseNumber] (nil, bool, string,
    [json.Number], array, object), and the typed numbers [QueryData] stores in
    a row. *)
Inductive GoValue :=
| VNil
| VBool (b : bool)
| VString (s : string)
| VNumber (n : string)
| VInt (z : Z)
| VInt64 (z : Z)
| VFloat64 (f : float)
| VArray (l : list GoValue)
| VObject (kvs : list (string * GoValue)).

(** Run-time panics the modelled code can raise. *)
Inductive panic :=
| TypeAssertion (wanted : string) (got : GoValue)
| IndexOutOfRange (i : nat) (len : nat)
| NilDereference
| CloseOfClosedChannel
| SendOnClosedChannel.

Definition isSome {A} (o : option A) : bool :=
  match o with
  | Some _ => true
  | None => false
  end.

(** A call either returns or panics. *)
Inductive Outcome (A : Type) :=
| Returned (a : A)
| Panicked (p : panic).
Arguments Returned {A} a.
Arguments Panicked {A} p.

(* ===================================================================== *)
(** ** escape: the escaper and unescaper replacers                        *)
(* ===================================================================== *)

Module Escape.

Definition backslash : ascii := ascii_of_nat 92.
Definition dquote : ascii := ascii_of_nat 34.
Definition str1 (c : ascii) : string := String c EmptyString.
Definition str2 (c d : ascii) : string := String c (String d EmptyString).

(** [strings.NewReplacer(old1, new1, old2, new2, ...)]: the pairs, in
    argument order. *)
Definition Replacer := list (string * string).

(** [strings.HasPrefix]. *)
Fixpoint HasPrefix (s prefix : string) {struct prefix} : bool :=
  match prefix with
  | EmptyString => true
  | String a prefix' =>
      match s with
      | EmptyString => false
      | String b s' => Ascii.eqb a b && HasPrefix s' prefix'
      end
  end.

(** The first pair, in argument order, whose old string starts the input. *)
Fixpoint lookup_pair (r : Replacer) (s : string) : option (string * string) :=
  match r with
  | [] => None
  | (old, new) :: r' =>
      if HasPrefix s old then Some (old, new) else lookup_pair r' s
  end.

(** The Replace method of a Replacer: replacements are made in the order they appear in
    the input, without overlapping matches; [skip] counts the bytes of a
    matched old string still to be passed over.  (All old strings of the two
    replacers of this package are non-empty.) *)
Fixpoint Replace_from (r : Replacer) (skip : nat) (s : string) : string :=
  match s with
  | EmptyString => EmptyString
  | String c rest =>
      match skip with
      | S k => Replace_from r k rest
      | O =>
          match lookup_pair r s with
          | Some (old, new) =>
              new +:+ Replace_from r (Nat.pred (String.length old)) rest
          | None => String c (Replace_from r 0 rest)
          end
      end
  end.

Definition Replace (r : Replacer) (s : string) : string := Replace_from r 0 s.

Definition escaper : Replacer :=
  [ (",", str2 backslash ",");
    (str1 dquote, str2 backslash dquote);
    (" ", str2 backslash " ");
    ("=", str2 backslash "=") ].

Definition unescaper : Replacer :=
  [ (str2 backslash ",", ",");
    (str2 backslash dquote, str1 dquote);
    (str2 backslash " ", " ");
    (str2 backslash "=", "=") ].

(** [strings.IndexByte]: index of the first [c] in [s], or -1. *)
Fixpoint IndexByte (s : string) (c : ascii) : Z :=
  match s with
  | EmptyString => -1
  | String d rest =>
      if Ascii.eqb d c then 0
      else let i := IndexByte rest c in if Z.eqb i (-1) then -1 else i + 1
  end.

(** [UnescapeString] returns unescaped version of in. *)
Definition UnescapeString (in_ : string) : string :=
  if Z.eqb (IndexByte in_ backslash) (-1) then in_
  else Replace unescaper in_.

(** [String0] returns the escaped version of in. *)
Definition String0 (in_ : string) : string := Replace escaper in_.

(** The reserved set: comma, double quote, space, equals sign. *)
Definition reserved (c : ascii) : bool :=
  Ascii.eqb c "," || Ascii.eqb c dquote || Ascii.eqb c " " || Ascii.eqb c "=".

Fixpoint all_reserved (s : string) : bool :=
  match s with
  | EmptyString => true
  | String c rest => reserved c && all_reserved rest
  end.

(** Every reserved byte of [s] comes right after a backslash; [prev] tells
    whether the byte in front of [s] is one. *)
Fixpoint guarded (prev : bool) (s : string) : bool :=
  match s with
  | EmptyString => true
  | String c rest => (negb (reserved c) || prev) && guarded (Ascii.eqb c backslash) rest
  end.

End Escape.

(* ===================================================================== *)
(** ** The Go library functions the client calls                          *)
(* ===================================================================== *)

(** Floating point stays outside: the two places where the client's result
    depends on a float64 computation are taken as given functions. *)
Class Float64 := {
  (** [uint64(float64(f) * (float64(unit) / scale))] of [time.ParseDuration],
      where [scale] is ten multiplied [k] times into the float 1. *)
  frac_of_unit : Z -> Z -> nat -> Z;
  (** [strconv.ParseFloat(s, 64)]: the value (the error is dropped by the
      only caller). *)
  strconv_ParseFloat : string -> float
}.

Module GoTime.

Definition code (c : ascii) : Z := Z.of_N (N_of_ascii c).
Definition isDigitChar (c : ascii) : bool := (48 <=? code c) && (code c <=? 57).
Definition digitVal (c : ascii) : Z := code c - 48.

(** *** strconv.ParseInt(s, 10, 64) *)

Inductive NumError := ErrSyntax | ErrRange.

Definition maxUint64 : Z := 2 ^ 64 - 1.

(** The digit loop of [strconv.ParseUint] for base 10 and bit size 64; [n] is
    the uint64 accumulator.  A range error ends the loop at the digit that
    overflows, before the rest of the text is looked at. *)
Fixpoint ParseUint_digits (s : string) (n : Z) : Z * option NumError :=
  match s with
  | EmptyString => (n, None)
  | String c rest =>
      if isDigitChar c then
        let d := digitVal c in
        let cutoff := maxUint64 / 10 + 1 in
        if n >=? cutoff then (maxUint64, Some ErrRange)
        else
          let n10 := n * 10 in
          let n1 := (n10 + d) mod 2 ^ 64 in
          if (n1 <? n10) || (n1 >? maxUint64) then (maxUint64, Some ErrRange)
          else ParseUint_digits rest n1
      else (0, Some ErrSyntax)
  end.

Definition ParseUint (s : string) : Z * option NumError :=
  match s with
  | EmptyString => (0, Some ErrSyntax)
  | _ => ParseUint_digits s 0
  end.

Definition ParseInt (s : string) : Z * option NumError :=
  match s with
  | EmptyString => (0, Some ErrSyntax)
  | String c0 rest =>
      let '(neg, s1) :=
        if Ascii.eqb c0 "+" then (false, rest)
        else if Ascii.eqb c0 "-" then (true, rest)
        else (false, s) in
      match ParseUint s1 with
      | (_, Some ErrSyntax) => (0, Some ErrSyntax)
      | (un, _) =>
          let cutoff := 2 ^ 63 in
          if negb neg && (un >=? cutoff) then (cutoff - 1, Some ErrRange)
          else if neg && (un >? cutoff) then (- cutoff, Some ErrRange)
          else (if neg then - un else un, None)
      end
  end.

(** [json.Number.Int64]. *)
Definition Number_Int64 (n : string) : Z * option NumError := ParseInt n.

(** *** time.ParseDuration *)

(** [leadingInt]: the leading run of digits as a uint64 (at most 2^63), the
    rest of the text, and whether the value overflowed. *)
Fixpoint leadingInt_from (s : string) (x : Z) : option (Z * string) :=
  match s with
  | EmptyString => Some (x, s)
  | String c rest =>
      if isDigitChar c then
        if x >? 2 ^ 63 / 10 then None
        else
          let x' := x * 10 + digitVal c in
          if x' >? 2 ^ 63 then None else leadingInt_from rest x'
      else Some (x, s)
  end.

Definition leadingInt (s : string) : option (Z * string) := leadingInt_from s 0.

(** [leadingFraction]: the digits after the point; once the accumulator would
    overflow the remaining digits are passed over.  [k] counts the digits
    taken, so that [scale] is ten to the [k]. *)
Fixpoint leadingFraction_from (s : string) (x : Z) (k : nat) (overflow : bool)
  : Z * nat * string :=
  match s with
  | EmptyString => (x, k, s)
  | String c rest =>
      if isDigitChar c then
        if overflow then leadingFraction_from rest x k true
        else if x >? (2 ^ 63 - 1) / 10 then leadingFraction_from rest x k true
        else
          let y := x * 10 + digitVal c in
          if y >? 2 ^ 63 then leadingFraction_from rest x k true
          else leadingFraction_from rest y (S k) false
      else (x, k, s)
  end.

Definition leadingFraction (s : string) : Z * nat * string :=
  leadingFraction_from s 0 0%nat false.

(** The unit: the longest prefix without a point or a digit. *)
Fixpoint unitSpan (s : string) : string * string :=
  match s with
  | EmptyString => (EmptyString, EmptyString)
  | String c rest =>
      if Ascii.eqb c "." || isDigitChar c then (EmptyString, s)
      else let '(u, r) := unitSpan rest in (String c u, r)
  end.

Definition Nanosecond : Z := 1.
Definition Microsecond : Z := 1000 * Nanosecond.
Definition Millisecond : Z := 1000 * Microsecond.
Definition Second : Z := 1000 * Millisecond.
Definition Minute : Z := 60 * Second.
Definition Hour : Z := 60 * Minute.

(** The two spellings of the micro sign, as UTF-8 bytes: U+00B5 and U+03BC. *)
Definition micro_sign_s : string :=
  String (ascii_of_nat 194) (String (ascii_of_nat 181) "s").
Definition greek_mu_s : string :=
  String (ascii_of_nat 206) (String (ascii_of_nat 188) "s").

Definition unitMap (u : string) : option Z :=
  if String.eqb u "ns" then Some Nanosecond
  else if String.eqb u "us" then Some Microsecond
  else if String.eqb u micro_sign_s then Some Microsecond
  else if String.eqb u greek_mu_s then Some Microsecond
  else if String.eqb u "ms" then Some Millisecond
  else if String.eqb u "s" then Some Second
  else if String.eqb u "m" then Some Minute
  else if String.eqb u "h" then Some Hour
  else None.

(** The keys of the unit map. *)
Definition durationUnits : list string :=
  [ "ns"; "us"; micro_sign_s; greek_mu_s; "ms"; "s"; "m"; "h" ].

(** A text without a digit and without a point: the unit of a duration ends
    where one of them comes. *)
Fixpoint plainUnit (u : string) : bool :=
  match u with
  | EmptyString => true
  | String c rest => negb (Ascii.eqb c "." || isDigitChar c) && plainUnit rest
  end.

Section ParseDuration.
Context `{Float64}.

(** One pass through the body of the loop over the text: a number, an optional
    fraction and a unit.  Gives the nanoseconds of the term and the text left. *)
Definition parseTerm (orig s : string) : (Z * string) + DurationError :=
  match s with
  | EmptyString => inr (InvalidDuration orig)
  | String c0 _ =>
      if negb (Ascii.eqb c0 "." || isDigitChar c0) then inr (InvalidDuration orig)
      else
        match leadingInt s with
        | None => inr (InvalidDuration orig)
        | Some (v, s1) =>
            let pre := negb (Nat.eqb (String.length s) (String.length s1)) in
            let '(f, k, post, s2) :=
              match s1 with
              | String "." s1' =>
                  let '(f, k, s2) := leadingFraction s1' in
                  (f, k, negb (Nat.eqb (String.length s1') (String.length s2)), s2)
              | _ => (0, 0%nat, false, s1)
              end in
            if negb pre && negb post then inr (InvalidDuration orig)
            else
              let '(u, s3) := unitSpan s2 in
              match u with
              | EmptyString => inr (MissingUnit orig)
              | _ =>
                  match unitMap u with
                  | None => inr (UnknownUnit u orig)
                  | Some unit =>
                      if v >? 2 ^ 63 / unit then inr (InvalidDuration orig)
                      else
                        let v := v * unit in
                        if f >? 0 then
                          let v := (v + frac_of_unit f unit k) mod 2 ^ 64 in
                          if v >? 2 ^ 63 then inr (InvalidDuration orig)
                          else inl (v, s3)
                        else inl (v, s3)
                  end
              end
        end
  end.

(** The loop over the text left, with the total [d] so far, a uint64 that wraps
    around.  Every pass takes at least one byte (the unit is not empty), so
    the length of the text is enough fuel; [None] is for fuel that ran out. *)
Fixpoint parseTerms (fuel : nat) (orig s : string) (d : Z) : option (Z + DurationError) :=
  match s with
  | EmptyString => Some (inl d)
  | _ =>
      match fuel with
      | O => None
      | S fuel' =>
          match parseTerm orig s with
          | inr e => Some (inr e)
          | inl (v, rest) =>
              let d := (d + v) mod 2 ^ 64 in
              if d >? 2 ^ 63 then Some (inr (InvalidDuration orig))
              else parseTerms fuel' orig rest d
          end
      end
  end.

(** [time.ParseDuration]: the duration in nanoseconds, or an error. *)
Definition ParseDuration (s : string) : Z + DurationError :=
  let orig := s in
  let '(neg, s) :=
    match s with
    | String c rest =>
        if Ascii.eqb c "-" then (true, rest)
        else if Ascii.eqb c "+" then (false, rest)
        else (false, s)
    | EmptyString => (false, s)
    end in
  if String.eqb s "0" then inl 0
  else
    match s with
    | EmptyString => inr (InvalidDuration orig)
    | _ =>
        match parseTerms (String.length s) orig s 0 with
        | None => inr (InvalidDuration orig)
        | Some (inr e) => inr e
        | Some (inl d) =>
            if neg then inl (- d)
            else if d >? 2 ^ 63 - 1 then inr (InvalidDuration orig)
            else inl d
        end
    end.

End ParseDuration.

(** *** time.Parse with the layout of the client *)

Definition strDrop (n : nat) (s : string) : string :=
  String.substring n (String.length s - n) s.
Definition strTake (n : nat) (s : string) : string := String.substring 0 n s.

(** [isDigit(s, i)]. *)
Definition isDigit (s : string) (i : nat) : bool :=
  match String.get i s with
  | Some c => isDigitChar c
  | None => false
  end.

Definition commaOrPeriod (c : ascii) : bool := Ascii.eqb c "." || Ascii.eqb c ",".

(** [int(q)] for a uint64 [q]: two's complement reading of the 64 bits. *)
Definition int_of_uint64 (q : Z) : Z := if q >=? 2 ^ 63 then q - 2 ^ 64 else q.

(** [atoi]: an optional sign, then digits to the end of the text. *)
Definition atoi (s : string) : option Z :=
  let '(neg, s) :=
    match s with
    | String c rest =>
        if Ascii.eqb c "-" then (true, rest)
        else if Ascii.eqb c "+" then (false, rest)
        else (false, s)
    | EmptyString => (false, s)
    end in
  match leadingInt s with
  | Some (q, EmptyString) =>
      let x := int_of_uint64 q in Some (if neg then - x else x)
  | _ => None
  end.

(** [getnum]: one or two digits; exactly two when [fixed]. *)
Definition getnum (s : string) (fixed : bool) : option (Z * string) :=
  match s with
  | String c0 rest =>
      if negb (isDigitChar c0) then None
      else
        match rest with
        | String c1 rest' =>
            if isDigitChar c1 then Some (digitVal c0 * 10 + digitVal c1, rest')
            else if fixed then None else Some (digitVal c0, rest)
        | EmptyString => if fixed then None else Some (digitVal c0, rest)
        end
  | EmptyString => None
  end.

(** [skip]: the literal text between two layout elements must be there.  (The
    literals of this layout have no space, so the space rule of the library
    does not come into play.) *)
Fixpoint skip (value prefix : string) {struct prefix} : option string :=
  match prefix with
  | EmptyString => Some value
  | String p prefix' =>
      match value with
      | String v value' => if Ascii.eqb v p then skip value' prefix' else None
      | EmptyString => None
      end
  end.

Fixpoint pow10 (n : nat) : Z :=
  match n with
  | O => 1
  | S n' => 10 * pow10 n'
  end.

(** [parseNanoseconds(value, nbytes)]. *)
Definition parseNanoseconds (value : string) (nbytes : nat) : option Z :=
  match value with
  | String c _ =>
      if negb (commaOrPeriod c) then None
      else
        let '(value, nbytes) :=
          if (10 <? nbytes)%nat then (strTake 10 value, 10%nat) else (value, nbytes) in
        match atoi (String.substring 1 (nbytes - 1) value) with
        | None => None
        | Some ns => if ns <? 0 then None else Some (ns * pow10 (10 - nbytes))
        end
  | EmptyString => None
  end.

(** How many digits follow the first byte of [value]. *)
Fixpoint digitRun (s : string) : nat :=
  match s with
  | String c rest => if isDigitChar c then S (digitRun rest) else O
  | EmptyString => O
  end.

Definition isLeap (year : Z) : bool :=
  (year mod 4 =? 0) && (negb (year mod 100 =? 0) || (year mod 400 =? 0)).

Definition daysBefore : list Z :=
  [0; 31; 59; 90; 120; 151; 181; 212; 243; 273; 304; 334; 365].

Definition daysIn (m year : Z) : Z :=
  if (m =? 2) && isLeap year then 29
  else nth (Z.to_nat m) daysBefore 0 - nth (Z.to_nat (m - 1)) daysBefore 0.

(** A [time.Time] in UTC: seconds since 1970-01-01T00:00:00Z and nanoseconds. *)
Record Time := { Time_sec : Z; Time_nsec : Z }.

Definition Unix (t : Time) : Z := Time_sec t.

(** Leap years among the years 1 .. year-1 (proleptic Gregorian calendar). *)
Definition leapsBefore (year : Z) : Z :=
  (year - 1) / 4 - (year - 1) / 100 + (year - 1) / 400.

(** [time.Date(year, month, day, hour, min, sec, nsec, time.UTC)] for values
    already in range, as [Parse] passes them: days before the year, days
    before the month, the leap day, the days of the month, then the seconds
    of the day.  The library counts the days from its own epoch and shifts by
    a constant; the count below starts at 1970-01-01. *)
Definition Date (year month day hour min sec nsec : Z) : Time :=
  let d := 365 * (year - 1970) + (leapsBefore year - leapsBefore 1970) in
  let d := d + nth (Z.to_nat (month - 1)) daysBefore 0 in
  let d := if isLeap year && (3 <=? month) then d + 1 else d in
  let d := d + (day - 1) in
  {| Time_sec := d * 86400 + (hour * 3600 + min * 60 + sec); Time_nsec := nsec |}.

(** The layout elements [nextStdChunk] finds in a layout. *)
Inductive stdChunk :=
| stdLongYear | stdZeroMonth | stdZeroDay | stdHour
| stdZeroMinute | stdZeroSecond | stdFracSecond9.

(** The fields [Parse] fills in. *)
Record Fields := {
  f_year : Z; f_month : Z; f_day : Z;
  f_hour : Z; f_min : Z; f_sec : Z; f_nsec : Z
}.

(** One case of the [switch std & stdMask] of [Parse]: reads a field from the
    front of [value]; [None] is a parse or range error. *)
Definition parseChunk (std : stdChunk) (value : string) (fs : Fields)
  : option (Fields * string) :=
  match std with
  | stdLongYear =>
      if (String.length value <? 4)%nat || negb (isDigit value 0) then None
      else
        match atoi (strTake 4 value) with
        | None => None
        | Some year =>
            Some ({| f_year := year; f_month := f_month fs; f_day := f_day fs;
                     f_hour := f_hour fs; f_min := f_min fs; f_sec := f_sec fs;
                     f_nsec := f_nsec fs |}, strDrop 4 value)
        end
  | stdZeroMonth =>
      match getnum value true with
      | None => None
      | Some (month, value) =>
          if (month <=? 0) || (12 <? month) then None
          else
            Some ({| f_year := f_year fs; f_month := month; f_day := f_day fs;
                     f_hour := f_hour fs; f_min := f_min fs; f_sec := f_sec fs;
                     f_nsec := f_nsec fs |}, value)
      end
  | stdZeroDay =>
      match getnum value true with
      | None => None
      | Some (day, value) =>
          Some ({| f_year := f_year fs; f_month := f_month fs; f_day := day;
                   f_hour := f_hour fs; f_min := f_min fs; f_sec := f_sec fs;
                   f_nsec := f_nsec fs |}, value)
      end
  | stdHour =>
      match getnum value false with
      | None => None
      | Some (hour, value) =>
          if (hour <? 0) || (24 <=? hour) then None
          else
            Some ({| f_year := f_year fs; f_month := f_month fs; f_day := f_day fs;
                     f_hour := hour; f_min := f_min fs; f_sec := f_sec fs;
                     f_nsec := f_nsec fs |}, value)
      end
  | stdZeroMinute =>
      match getnum value true with
      | None => None
      | Some (min, value) =>
          if (min <? 0) || (60 <=? min) then None
          else
            Some ({| f_year := f_year fs; f_month := f_month fs; f_day := f_day fs;
                     f_hour := f_hour fs; f_min := min; f_sec := f_sec fs;
                     f_nsec := f_nsec fs |}, value)
      end
  | stdZeroSecond =>
      (* a fraction that follows is left to the next element of the layout,
         which is the fractional second *)
      match getnum value true with
      | None => None
      | Some (sec, value) =>
          if (sec <? 0) || (60 <=? sec) then None
          else
            Some ({| f_year := f_year fs; f_month := f_month fs; f_day := f_day fs;
                     f_hour := f_hour fs; f_min := f_min fs; f_sec := sec;
                     f_nsec := f_nsec fs |}, value)
      end
  | stdFracSecond9 =>
      match value with
      | String c0 (String c1 _ as tl) =>
          if negb (commaOrPeriod c0) || negb (isDigitChar c1) then Some (fs, value)
          else
            let i := digitRun tl in
            match parseNanoseconds value (1 + i) with
            | None => None
            | Some nsec =>
                Some ({| f_year := f_year fs; f_month := f_month fs; f_day := f_day fs;
                         f_hour := f_hour fs; f_min := f_min fs; f_sec := f_sec fs;
                         f_nsec := nsec |}, strDrop (1 + i) value)
            end
      | _ => Some (fs, value)
      end
  end.

(** The loop of [Parse] over the elements of the layout, each with the
    literal text in front of it. *)
Fixpoint parseChunks (chunks : list (string * stdChunk)) (value : string) (fs : Fields)
  : option (Fields * string) :=
  match chunks with
  | [] => Some (fs, value)
  | (prefix, std) :: chunks' =>
      match skip value prefix with
      | None => None
      | Some value =>
          match parseChunk std value fs with
          | None => None
          | Some (fs, value) => parseChunks chunks' value fs
          end
      end
  end.

Definition tsdbTimeStampFormat : string := "2006-01-02T15:04:05.999999999Z".

(** [tsdbTimeStampFormat] as [nextStdChunk] cuts it: the literal in front of
    each element, and the literal left at the end ([Z] alone is no zone
    element of a layout). *)
Definition tsdbLayout : list (string * stdChunk) :=
  [ ("", stdLongYear); ("-", stdZeroMonth); ("-", stdZeroDay); ("T", stdHour);
    (":", stdZeroMinute); (":", stdZeroSecond); ("", stdFracSecond9) ].
Definition tsdbLayoutTail : string := "Z".

(** How each element is written in a layout. *)
Definition stdText (std : stdChunk) : string :=
  match std with
  | stdLongYear => "2006"
  | stdZeroMonth => "01"
  | stdZeroDay => "02"
  | stdHour => "15"
  | stdZeroMinute => "04"
  | stdZeroSecond => "05"
  | stdFracSecond9 => ".999999999"
  end.

(** The layout text a list of elements stands for. *)
Fixpoint layoutText (chunks : list (string * stdChunk)) (tail : string) : string :=
  match chunks with
  | [] => tail
  | (prefix, std) :: chunks' => prefix +:+ stdText std +:+ layoutText chunks' tail
  end.

(** [time.Parse(tsdbTimeStampFormat, value)]; [None] is an error. *)
Definition Parse (value : string) : option Time :=
  let fs0 := {| f_year := 0; f_month := -1; f_day := -1;
                f_hour := 0; f_min := 0; f_sec := 0; f_nsec := 0 |} in
  match parseChunks tsdbLayout value fs0 with
  | None => None
  | Some (fs, value) =>
      match skip value tsdbLayoutTail with
      | Some EmptyString =>
          if (f_day fs <? 1) || (f_day fs >? daysIn (f_month fs) (f_year fs)) then None
          else Some (Date (f_year fs) (f_month fs) (f_day fs)
                          (f_hour fs) (f_min fs) (f_sec fs) (f_nsec fs))
      | _ => None
      end
  end.

(** *** Times from Unix counts *)

(** [time.Unix(sec, nsec)]: nanoseconds outside 0 .. 999999999 are carried
    into the seconds (the division of Go rounds towards zero). *)
Definition time_Unix (sec nsec : Z) : Time :=
  if (nsec <? 0) || (nsec >=? 1000000000) then
    let n := Z.quot nsec 1000000000 in
    let sec := sec + n in
    let nsec := nsec - n * 1000000000 in
    if nsec <? 0 then {| Time_sec := sec - 1; Time_nsec := nsec + 1000000000 |}
    else {| Time_sec := sec; Time_nsec := nsec |}
  else {| Time_sec := sec; Time_nsec := nsec |}.

(** [time.UnixMilli] and [time.UnixMicro]. *)
Definition time_UnixMilli (msec : Z) : Time :=
  time_Unix (Z.quot msec 1000) (Z.rem msec 1000 * 1000000).
Definition time_UnixMicro (usec : Z) : Time :=
  time_Unix (Z.quot usec 1000000) (Z.rem usec 1000000 * 1000).

(** The nanoseconds since the epoch a [Time] stands for. *)
Definition UnixNano (t : Time) : Z := Time_sec t * 1000000000 + Time_nsec t.

End GoTime.

(* ===================================================================== *)
(** ** taosclient.go: batch points, write, query                          *)
(* ===================================================================== *)

Module Taos.
Import GoTime.

Definition newline : string := String (ascii_of_nat 10) EmptyString.

(** [type ContentEncoding string]. *)
Definition ContentEncoding := string.
Definition DefaultEncoding : ContentEncoding := "".
Definition GzipEncoding : ContentEncoding := "gzip".

Definition WriteDataURL : string := "influxdb/v1/write".
Definition ExecuteSqlURL : string := "rest/sql".

Definition StatusOK : Z := 200.
Definition StatusNoContent : Z := 204.
Definition StatusInternalServerError : Z := 500.

(** [url.URL], the parts the client touches. *)
Record URL := { Scheme : string; Host : string; Path : string; RawQuery : string }.

(** An [http.Request] as the client builds it: headers set by name, basic
    auth, the query values of the URL, the body. *)
Record Request := {
  Method : string;
  ReqURL : string;
  Header : gmap string string;
  BasicAuth : option (string * string);
  Params : gmap string (list string);
  ReqBody : string
}.

(** A response body as a reader: the bytes it delivers, and the error it ends
    with when it does not end with EOF. *)
Record Body := { content : string; read_err : option error }.

(** An [http.Response]: status, the Content-Type header, the body. *)
Record HTTPResponse := {
  StatusCode : Z;
  ContentType : string;
  RespBody : Body
}.

(** [io.ReadAll]. *)
Definition io_ReadAll (b : Body) : string * option error := (content b, read_err b).

(** [io.ReadAll(io.LimitReader(b, n))]: the limit ends the stream first when
    the body has that many bytes. *)
Definition io_ReadAll_Limit (b : Body) (n : nat) : string * option error :=
  if (n <=? String.length (content b))%nat then (strTake n (content b), None)
  else (content b, read_err b).

(** [Response] represents a list of statement results. *)
Record Response := {
  Code : Z;
  Desc : string;
  ColumnMeta : list (list GoValue);
  Data : list (list GoValue);
  Rows : Z
}.

(** The zero value of [Response]. *)
Definition Response_zero : Response :=
  {| Code := 0; Desc := ""; ColumnMeta := []; Data := []; Rows := 0 |}.

(** What [Decode] of a [json.Decoder] with [UseNumber] leaves: the response it
    filled in, or the text of its error.  After a failure the caller either
    drops the response or, for the one error it lets pass (EOF, the body held
    no value at all), still has the zero value. *)
Inductive DecodeResult :=
| Decoded (r : Response)
| DecodeFailed (msg : string).

(** What the package takes from outside: the point type of the line protocol
    with its serialisation (a file of this package that is not among the
    sources at hand), and the library calls whose details play no part here. *)
Class Externals := {
  Point : Type;
  (** [Point.PrecisionString(precision)]: the line of a point. *)
  Point_PrecisionString : Point -> string -> string;
  (** what a [gzip.Writer] has put in its buffer once closed *)
  gzip_bytes : string -> string;
  path_Join : string -> string -> string;
  URL_String : URL -> string;
  (** the error of [http.NewRequest(method, url, body)], if any *)
  http_NewRequest_error : string -> string -> option error;
  (** [req.URL.Query()] of a request made for this URL text *)
  URL_Query : string -> gmap string (list string);
  (** the media type [mime.ParseMediaType] finds in a header value *)
  mime_ParseMediaType : string -> string;
  json_Decode : Body -> DecodeResult
}.

Section WithExternals.
Context `{Float64} `{Externals}.

(** [DataPoint] represents a single data point. *)
Record DataPoint := { pt : Point }.

(** [BatchPointsConfig] is the config data needed to create an instance of
    the BatchPoints struct. *)
Record BatchPointsConfig := { cfg_Precision : string; cfg_Database : string }.

(** A [*DataPoint] may be nil. *)
Record batchpoints := {
  points : list (option DataPoint);
  database : string;
  precision : string;
  retentionPolicy : string;
  writeConsistency : string
}.

(** [NewBatchPoints] returns a BatchPoints interface based on the given config. *)
Definition NewBatchPoints (conf : BatchPointsConfig) : batchpoints + error :=
  let conf :=
    if String.eqb (cfg_Precision conf) ""
    then {| cfg_Precision := "ms"; cfg_Database := cfg_Database conf |}
    else conf in
  match ParseDuration ("1" +:+ cfg_Precision conf) with
  | inr err => inr (time_error err)
  | inl _ =>
      inl {| points := []; database := cfg_Database conf;
             precision := cfg_Precision conf;
             retentionPolicy := ""; writeConsistency := "" |}
  end.

Definition AddPoint (bp : batchpoints) (p : option DataPoint) : batchpoints :=
  {| points := points bp ++ [p]; database := database bp; precision := precision bp;
     retentionPolicy := retentionPolicy bp; writeConsistency := writeConsistency bp |}.

Definition AddPoints (bp : batchpoints) (ps : list (option DataPoint)) : batchpoints :=
  {| points := points bp ++ ps; database := database bp; precision := precision bp;
     retentionPolicy := retentionPolicy bp; writeConsistency := writeConsistency bp |}.

Definition Points (bp : batchpoints) : list (option DataPoint) := points bp.
Definition Precision (bp : batchpoints) : string := precision bp.
Definition Database (bp : batchpoints) : string := database bp.

(** [SetPrecision]: the batch after the call, and the error returned. *)
Definition SetPrecision (bp : batchpoints) (p : string) : batchpoints * option error :=
  match ParseDuration ("1" +:+ p) with
  | inr err => (bp, Some (time_error err))
  | inl _ =>
      ({| points := points bp; database := database bp; precision := p;
          retentionPolicy := retentionPolicy bp;
          writeConsistency := writeConsistency bp |}, None)
  end.

Definition SetDatabase (bp : batchpoints) (db : string) : batchpoints :=
  {| points := points bp; database := db; precision := precision bp;
     retentionPolicy := retentionPolicy bp; writeConsistency := writeConsistency bp |}.

(** The precision parses as a duration unit: [time.ParseDuration] takes the
    text made of 1 and the unit. *)
Definition validPrecision (p : string) : bool :=
  match ParseDuration ("1" +:+ p) with
  | inl _ => true
  | inr _ => false
  end.

(** The four units of the line protocol. *)
Definition lineProtocolUnits : list string := [ "ns"; "us"; "ms"; "s" ].

(** [PrecisionString] of a data point. *)
Definition PrecisionString (p : DataPoint) (precision : string) : string :=
  Point_PrecisionString (pt p) precision.

(** The HTTP client: the fields are read-only once it is made.  [httpClient]
    stands for [httpClient.Do]: the answer of the network to a request. *)
Record client := {
  url : URL;
  username : string;
  password : string;
  useragent : string;
  httpClient : Request -> HTTPResponse + error;
  encoding : ContentEncoding
}.

Definition Header_Set (k v : string) (req : Request) : Request :=
  {| Method := Method req; ReqURL := ReqURL req; Header := <[k := v]> (Header req);
     BasicAuth := BasicAuth req; Params := Params req; ReqBody := ReqBody req |}.

Definition SetBasicAuth (u p : string) (req : Request) : Request :=
  {| Method := Method req; ReqURL := ReqURL req; Header := Header req;
     BasicAuth := Some (u, p); Params := Params req; ReqBody := ReqBody req |}.

Definition Params_Set (k v : string) (req : Request) : Request :=
  {| Method := Method req; ReqURL := ReqURL req; Header := Header req;
     BasicAuth := BasicAuth req; Params := <[k := [v]]> (Params req);
     ReqBody := ReqBody req |}.

(** [http.NewRequest]. *)
Definition http_NewRequest (method url body : string) : Request + error :=
  match http_NewRequest_error method url with
  | Some err => inr err
  | None =>
      inl {| Method := method; ReqURL := url; Header := ∅; BasicAuth := None;
             Params := URL_Query url; ReqBody := body |}
  end.

(** The loop of [Write] over [bp.Points()]: what has been written to [w]
    after the points [ps], starting from [written].  A nil point is passed
    over; a point gives its line and a newline.  (Writing to a [bytes.Buffer],
    directly or through a [gzip.Writer], returns no error.) *)
Fixpoint Write_points (ps : list (option DataPoint)) (prec : string) (written : string)
  : string :=
  match ps with
  | [] => written
  | None :: ps' => Write_points ps' prec written
  | Some p :: ps' =>
      Write_points ps' prec (written +:+ PrecisionString p prec +:+ newline)
  end.

(** The lines of the points [ps], each ended by a newline, in order. *)
Fixpoint lines_of (ps : list DataPoint) (prec : string) : string :=
  match ps with
  | [] => ""
  | p :: ps' => (PrecisionString p prec +:+ newline) +:+ lines_of ps' prec
  end.

(** [Write] up to the request it is about to send. *)
Definition Write_request (c : client) (bp : batchpoints) : Request + error :=
  let written := Write_points (Points bp) (Precision bp) "" in
  let b := if String.eqb (encoding c) GzipEncoding then gzip_bytes written else written in
  let u := {| Scheme := Scheme (url c); Host := Host (url c);
              Path := path_Join (Path (url c)) WriteDataURL;
              RawQuery := RawQuery (url c) |} in
  match http_NewRequest "POST" (URL_String u) b with
  | inr err => inr err
  | inl req =>
      let req :=
        if negb (String.eqb (encoding c) DefaultEncoding)
        then Header_Set "Content-Encoding" (encoding c) req else req in
      let req := Header_Set "Content-Type" "" req in
      let req := Header_Set "User-Agent" (useragent c) req in
      let req :=
        if negb (String.eqb (username c) "")
        then SetBasicAuth (username c) (password c) req else req in
      let req := Params_Set "db" (Database bp) req in
      let req := Params_Set "precision" (Precision bp) req in
      inl req
  end.

(** [Write]: the request goes out, the answer is read. *)
Definition Write (c : client) (bp : batchpoints) : option error :=
  match Write_request c bp with
  | inr err => Some err
  | inl req =>
      match httpClient c req with
      | inr err => Some err
      | inl resp =>
          match io_ReadAll (RespBody resp) with
          | (_, Some err) => Some err
          | (body, None) =>
              if negb (StatusCode resp =? StatusNoContent)
                 && negb (StatusCode resp =? StatusOK)
              then Some (errors_New body)
              else None
          end
      end
  end.

(** [Query] defines a query to send to the server. *)
Record Query := { Command : string; QDatabase : string; QPrecision : string }.

Definition NewQuery (command database precision : string) : Query :=
  {| Command := command; QDatabase := database; QPrecision := precision |}.

(** [Error] returns the first error from any statement. *)
Definition Response_Error (r : Response) : option error :=
  if negb (Code r =? 0) || (0 <? String.length (Desc r))%nat then
    if (Code r =? 9826) || (Code r =? 9750) then Some ErrNotExistsTable
    else Some (errors_New (Desc r))
  else None.

Definition checkResponse (resp : HTTPResponse) : option error :=
  if StatusCode resp >=? StatusInternalServerError then
    match io_ReadAll (RespBody resp) with
    | (body, err) =>
        if isSome err || (String.length body =? 0)%nat then
          Some (fmt_Errorf "received status code %d from downstream server"
                           [ArgInt (StatusCode resp)])
        else
          Some (fmt_Errorf
                  "received status code %d from downstream server, with response body: %q"
                  [ArgInt (StatusCode resp); ArgString body])
    end
  else
    let cType := mime_ParseMediaType (ContentType resp) in
    if negb (String.eqb cType "application/json") then
      match io_ReadAll_Limit (RespBody resp) 1024 with
      | (body, err) =>
          if isSome err || (String.length body =? 0)%nat then
            Some (fmt_Errorf "expected json response, got empty body, with status: %v"
                             [ArgInt (StatusCode resp)])
          else
            Some (fmt_Errorf
                    "expected json response, got %q, with status: %v and response body: %q"
                    [ArgString cType; ArgInt (StatusCode resp); ArgString body])
      end
    else None.

Definition createDefaultRequest (c : client) (q : Query) : Request + error :=
  let p := path_Join (Path (url c)) ExecuteSqlURL in
  let p := if (0 <? String.length (QDatabase q))%nat then path_Join p (QDatabase q) else p in
  let u := {| Scheme := Scheme (url c); Host := Host (url c); Path := p;
              RawQuery := RawQuery (url c) |} in
  match http_NewRequest "POST" (URL_String u) (Command q) with
  | inr err => inr err
  | inl req =>
      let req := Header_Set "Content-Type" "" req in
      let req := Header_Set "User-Agent" (useragent c) req in
      let req :=
        if negb (String.eqb (username c) "")
        then SetBasicAuth (username c) (password c) req else req in
      inl req
  end.

(** [Query] sends a command to the server and returns the Response: the
    pointer returned (nil is [None]) and the error. *)
Definition client_Query (c : client) (q : Query) : option Response * option error :=
  match createDefaultRequest c q with
  | inr err => (None, Some err)
  | inl req =>
      match httpClient c req with
      | inr err => (None, Some err)
      | inl resp =>
          match checkResponse resp with
          | Some err => (None, Some err)
          | None =>
              let '(response, decErr) :=
                match json_Decode (RespBody resp) with
                | Decoded r => (r, None)
                | DecodeFailed msg => (Response_zero, Some msg)
                end in
              (* ignore this error if we got an invalid status code *)
              let decErr :=
                match decErr with
                | Some msg =>
                    if String.eqb msg "EOF" && negb (StatusCode resp =? StatusOK)
                    then None else Some msg
                | None => None
                end in
              match decErr with
              | Some msg =>
                  (* If we got a valid decode error, send that back *)
                  (None,
                   Some (fmt_Errorf
                           "unable to decode json: received status code %d err: %s"
                           [ArgInt (StatusCode resp); ArgString msg]))
              | None =>
                  (* If we don't have an error in our json response, and didn't
                     get statusOK then send back an error *)
                  if negb (StatusCode resp =? StatusOK)
                     && negb (isSome (Response_Error response))
                  then (Some response,
                        Some (fmt_Errorf "received status code %d from server"
                                         [ArgInt (StatusCode resp)]))
                  else (Some response, None)
              end
          end
      end
  end.

End WithExternals.

(** *** Making a client, and Ping *)

Section MakeClient.
Context `{Externals}.

(** [url.Parse]. *)
Variable url_Parse : string -> URL + error.

(** [HTTPConfig] is the config data needed to create an HTTP Client.
    [Transport] stands for the [http.Client] made from the timeout, the TLS
    settings and the proxy of the config: what it answers to a request. *)
Record HTTPConfig := {
  Addr : string;
  Username : string;
  Password : string;
  UserAgent : string;
  Transport : Request -> HTTPResponse + error;
  WriteEncoding : ContentEncoding
}.

(** [NewHTTPClient] returns a new Client from the provided config. *)
Definition NewHTTPClient (conf : HTTPConfig) : client + error :=
  let ua := if String.eqb (UserAgent conf) "" then "TDEngineDBClient" else UserAgent conf in
  match url_Parse (Addr conf) with
  | inr err => inr err
  | inl u =>
      if negb (String.eqb (Scheme u) "http") && negb (String.eqb (Scheme u) "https") then
        inr (errors_New ("Unsupported protocol scheme: " +:+ Scheme u +:+
                         ", your address must start with http:// or https://"))
      else if String.eqb (WriteEncoding conf) DefaultEncoding
              || String.eqb (WriteEncoding conf) GzipEncoding then
        inl {| url := u; username := Username conf; password := Password conf;
               useragent := ua; httpClient := Transport conf;
               encoding := WriteEncoding conf |}
      else inr (fmt_Errorf "unsupported encoding %s" [ArgString (WriteEncoding conf)])
  end.

(** How [Ping] ends; the time it took is left out. *)
Inductive PingPanic :=
| RowOutOfRange (i : Z) (len : nat)
| CellOutOfRange (len : nat)
| VersionNotString (v : GoValue).

Inductive PingResult :=
| Pong (version : string)
| PingFailed (err : error)
| PingPanicked (p : PingPanic).

Definition pingQuery : Query := NewQuery "select server_version() as version" "" "".

(** [Ping] will check to see if the server is up: the version is the first
    cell of the row number [Rows - 1] of the data. *)
Definition Ping (c : client) : PingResult :=
  match client_Query c pingQuery with
  | (_, Some err) => PingFailed err
  | (Some resp, None) =>
      let i := Rows resp - 1 in
      if (i <? 0) || (Z.of_nat (length (Data resp)) <=? i) then
        PingPanicked (RowOutOfRange i (length (Data resp)))
      else
        match Data resp !! Z.to_nat i with
        | Some row =>
            match row !! 0%nat with
            | Some (VString version) => Pong version
            | Some other => PingPanicked (VersionNotString other)
            | None => PingPanicked (CellOutOfRange (length row))
            end
        | None => PingPanicked (RowOutOfRange i (length (Data resp)))
        end
  | (None, None) => PingFailed (errors_New "get server version response empty")
  end.

End MakeClient.

End Taos.

(* ===================================================================== *)
(** ** The wrapper client: QueryData and the subscription loop            *)
(* ===================================================================== *)

Module TSDB.
Import GoTime Taos.

Definition taosPollTimeoutMs : Z := 5000.

(** A row: [map[string]interface{}]. *)
Abbreviation Row := (gmap string GoValue).

(** How the body of a loop ends: it goes on with its state, or the function
    returns, or it panics. *)
Inductive Flow (S R : Type) :=
| Next (s : S)
| Return (r : R)
| Panic (p : panic).
Arguments Next {S R} s.
Arguments Return {S R} r.
Arguments Panic {S R} p.


Section WithExternals.
Context `{Float64} `{Externals}.

(** The [Client] interface, as far as the wrapper calls it: any implementation
    answers a query with a response pointer and an error. *)
Record Client := {
  Client_Query : Query -> option Response * option error;
  Client_Write : batchpoints -> option error
}.

(** The HTTP client of taosclient.go implements the interface. *)
Definition Client_of_client (c : client) : Client :=
  {| Client_Query := client_Query c; Client_Write := Write c |}.

Record dbConfigT := {
  DBAddr : string; DBName : string; DBPrecision : string;
  DBUser : string; DBPass : string
}.

Record tsdbClient := {
  httpClient : option Client;
  dbConfig : dbConfigT;
  initialErr : option error;
  defaultNumberValue : GoValue
}.


Definition integer_types : list string :=
  [ "BIGINT"; "INT"; "TINYINT"; "SMALLINT"; "TINYINT UNSIGNED";
    "SMALLINT UNSIGNED"; "INT UNSIGNED"; "BIGINT UNSIGNED" ].
Definition float_types : list string := [ "FLOAT"; "DOUBLE" ].

Definition string_in (s : string) (l : list string) : bool :=
  existsb (String.eqb s) l.

(** The [switch] on the column type, for the cell [ri] of the row. *)
Definition convert (client : tsdbClient) (ctype : string) (ri : GoValue)
  : panic + GoValue :=
  if string_in ctype integer_types then
    match ri with
    | VNumber num => inr (VInt64 (fst (Number_Int64 num)))
    | _ => inr (defaultNumberValue client)
    end
  else if string_in ctype float_types then
    match ri with
    | VNumber num => inr (VFloat64 (strconv_ParseFloat num))
    | _ => inr (defaultNumberValue client)
    end
  else if String.eqb ctype "TIMESTAMP" then
    match ri with
    | VString s =>
        match Parse s with
        | Some ts => inr (VInt64 (Unix ts))
        | None => inr (VInt 0)
        end
    | other => inl (TypeAssertion "string" other)
    end
  else inr ri.

(** The body of [for i, c := range resp.ColumnMeta] for the row [r]. *)
Definition column (client : tsdbClient) (convertNumber : bool) (r : list GoValue)
    (i : nat) (c : list GoValue) (row : Row)
  : Flow Row (list Row * option error) :=
  (* c is column meta, format: [column name, column type, type size] *)
  if negb (Nat.eqb (length c) 3) then
    Return ([], Some (errors_New "column meta data length no equal 3"))
  else
    match c !! 0%nat with
    | Some (VString cn) =>
        (* if column name is `_`, ignore *)
        if String.eqb cn "_" then Next row
        else if convertNumber then
          match c !! 1%nat with
          | Some (VString ctype) =>
              match r !! i with
              | None => Panic (IndexOutOfRange i (length r))
              | Some ri =>
                  match convert client ctype ri with
                  | inl p => Panic p
                  | inr v => Next (<[cn := v]> row)
                  end
              end
          | Some other => Panic (TypeAssertion "string" other)
          | None => Panic (IndexOutOfRange 1 (length c))
          end
        else
          match r !! i with
          | None => Panic (IndexOutOfRange i (length r))
          | Some ri => Next (<[cn := ri]> row)
          end
    | Some other => Panic (TypeAssertion "string" other)
    | None => Panic (IndexOutOfRange 0 (length c))
    end.

Fixpoint columns (client : tsdbClient) (convertNumber : bool) (r : list GoValue)
    (i : nat) (cs : list (list GoValue)) (row : Row)
  : Flow Row (list Row * option error) :=
  match cs with
  | [] => Next row
  | c :: cs' =>
      match column client convertNumber r i c row with
      | Next row' => columns client convertNumber r (S i) cs' row'
      | stop => stop
      end
  end.

(** The loop [for _, r := range resp.Data], with the rows appended so far. *)
Fixpoint rows (client : tsdbClient) (convertNumber : bool) (meta : list (list GoValue))
    (data : list (list GoValue)) (result : list Row)
  : Outcome (list Row * option error) :=
  match data with
  | [] => Returned (result, None)
  | r :: data' =>
      match columns client convertNumber r 0 meta ∅ with
      | Next row => rows client convertNumber meta data' (result ++ [row])
      | Return res => Returned res
      | Panic p => Panicked p
      end
  end.

(** [QueryData]: the named results [(result, err)], a nil slice being the
    empty list, or a panic. *)
Definition QueryData (client : tsdbClient) (sql : string) (convertNumber : bool)
  : Outcome (list Row * option error) :=
  match httpClient client, initialErr client with
  | Some http, None =>
      match Client_Query http
              (NewQuery sql (DBName (dbConfig client)) (DBPrecision (dbConfig client))) with
      | (_, Some err) => Returned ([], Some err)
      | (None, None) => Panicked NilDereference
      | (Some resp, None) =>
          match Response_Error resp with
          | Some ErrNotExistsTable => Returned ([], None)
          | Some err => Returned ([], Some err)
          | None => rows client convertNumber (ColumnMeta resp) (Data resp) []
          end
      end
  | _, _ =>
      Returned ([], Some (fmt_Errorf "not created http client for tdengine: %v"
                                     [arg_of_error (initialErr client)]))
  end.

(** The client has been made and its HTTP client answers the query [sql]
    with the response [resp] and no error. *)
Definition answers (client : tsdbClient) (sql : string) (resp : Response) : Prop :=
  exists http,
    httpClient client = Some http /\ initialErr client = None /\
    Client_Query http
      (NewQuery sql (DBName (dbConfig client)) (DBPrecision (dbConfig client)))
    = (Some resp, None).

Definition errColumnMeta : error := errors_New "column meta data length no equal 3".

(** A column meta entry that is a triple has strings for name and type. *)
Definition entry_ok (c : list GoValue) : bool :=
  match c with
  | [VString _; VString _; _] => true
  | [_; _; _] => false
  | _ => true
  end.

(** The cell of a named TIMESTAMP column is a string. *)
Definition cell_ok (c : list GoValue) (ri : GoValue) : bool :=
  match c with
  | [VString cn; VString ctype; _] =>
      if String.eqb cn "_" then true
      else if String.eqb ctype "TIMESTAMP" then
        match ri with
        | VString _ => true
        | _ => false
        end
      else true
  | _ => true
  end.

(** The row has a cell for every column, and the cells fit the columns. *)
Definition row_ok (meta : list (list GoValue)) (r : list GoValue) : Prop :=
  (length meta <= length r)%nat /\
  forall i c ri, meta !! i = Some c -> r !! i = Some ri -> cell_ok c ri = true.

Definition response_ok (resp : Response) : Prop :=
  Forall (fun c => entry_ok c = true) (ColumnMeta resp) /\
  Forall (row_ok (ColumnMeta resp)) (Data resp).

(** The column meta entry [c] names the column [cn]. *)
Definition named (c : list GoValue) (cn : string) : Prop := c !! 0%nat = Some (VString cn).

(** [v] is what the column [c], at place [i], puts in the row for the data
    row [r]: the cell itself without conversion, the converted cell with it. *)
Definition cell_value (client : tsdbClient) (convertNumber : bool)
    (c : list GoValue) (r : list GoValue) (i : nat) (v : GoValue) : Prop :=
  if convertNumber then
    exists ctype ri,
      c !! 1%nat = Some (VString ctype) /\ r !! i = Some ri /\
      convert client ctype ri = inr v
  else r !! i = Some v.

(** No column after place [j] has the name [cn]. *)
Definition last_named (meta : list (list GoValue)) (j : nat) (cn : string) : Prop :=
  forall j' c', (j < j')%nat -> meta !! j' = Some c' -> ~ named c' cn.

End WithExternals.

(** *** The subscription loop *)

Section Subscribe.

(** A delivered message ([TSDBSubscribedMessage]); the loop passes it on
    without looking inside. *)
Variable Message : Type.

(** What [Poll] returned, as the type switch of the loop sorts it. *)
Inductive Event :=
| EvNil
| EvMessage (m : Message)
| EvError (e : error)
| EvOther.

(** The destination channel, seen from the sending side: what has been sent,
    and whether it has been closed. *)
Record Channel := { sent : list Message; closed : bool }.

(** The calls made on the consumer, in order. *)
Inductive ConsumerCall :=
| CallSubscribe (topic : string)
| CallPoll (timeoutMs : Z)
| CallUnsubscribe
| CallClose.

Record State := { chMessage : Channel; calls : list ConsumerCall }.

Definition call (c : ConsumerCall) (st : State) : State :=
  {| chMessage := chMessage st; calls := calls st ++ [c] |}.

(** What the surroundings answer during one pass of the loop: whether the
    context is done when the [select] runs, what [Unsubscribe] or [Poll]
    return if called, and whether the channel can take a message at once
    (room in its buffer, or a receiver waiting). *)
Record Tick := {
  ctx_done : bool;
  unsubscribe_result : option error;
  poll_result : Event;
  send_ready : bool
}.

(** One pass of [for { select { ... } }].  (Log lines are left out.) *)
Definition iteration (t : Tick) (st : State) : Flow State (option error * State) :=
  if ctx_done t then
    let st := call CallUnsubscribe st in
    match unsubscribe_result t with
    | Some e => Return (Some e, st)
    | None =>
        if closed (chMessage st) then Panic CloseOfClosedChannel
        else
          Return (None,
                  {| chMessage := {| sent := sent (chMessage st); closed := true |};
                     calls := calls st |})
    end
  else
    let st := call (CallPoll taosPollTimeoutMs) st in
    match poll_result t with
    | EvNil => Next st
    | EvMessage e =>
        if closed (chMessage st) then Panic SendOnClosedChannel
        else if send_ready t then
          Next {| chMessage := {| sent := sent (chMessage st) ++ [e]; closed := false |};
                  calls := calls st |}
        else Next st
    | EvError e => Return (Some e, st)
    | EvOther => Next st
    end.

(** How a call ends: it returned (with the state it left), it refused its
    arguments before touching anything, it panicked, or the loop was still
    going when the passes at hand ran out. *)
Inductive Run :=
| Finished (err : option error) (st : State)
| Refused (err : error)
| Crashed (p : panic)
| Running (st : State).

Fixpoint loop (ticks : list Tick) (st : State) : Run :=
  match ticks with
  | [] => Running st
  | t :: ticks' =>
      match iteration t st with
      | Next st' => loop ticks' st'
      | Return (err, st') => Finished err st'
      | Panic p => Crashed p
      end
  end.

(** The surroundings of one call of [subscribe]. *)
Record World := {
  newConsumer_error : option error;
  Subscribe_error : option error;
  ticks : list Tick
}.

(** The deferred calls, run when the function leaves the loop. *)
Definition deferred (st : State) : State := call CallClose (call CallUnsubscribe st).

(** [subscribe]: a nil channel is [None]. *)
Definition subscribe (w : World) (topic : string) (ch : option Channel) : Run :=
  if (String.length topic =? 0)%nat then
    Refused (errors_New "invalid args: topic is empty")
  else
    match ch with
    | None => Refused (errors_New "invalid args: chMessage is nil")
    | Some ch =>
        let st := {| chMessage := ch; calls := [] |} in
        match newConsumer_error w with
        | Some err => Finished (Some err) st
        | None =>
            let st := call (CallSubscribe topic) st in
            match Subscribe_error w with
            | Some err => Finished (Some err) (call CallClose st)
            | None =>
                match loop (ticks w) st with
                | Finished err st' => Finished err (deferred st')
                | other => other
                end
            end
        end
    end.

(** The messages the loop sends on during the passes [ticks]: those polled
    while the channel could take one, up to the pass that ends the loop. *)
Fixpoint forwarded (ticks : list Tick) : list Message :=
  match ticks with
  | [] => []
  | t :: ticks' =>
      if ctx_done t then []
      else
        match poll_result t with
        | EvMessage m => if send_ready t then m :: forwarded ticks' else forwarded ticks'
        | EvError _ => []
        | _ => forwarded ticks'
        end
  end.

End Subscribe.

Arguments forwarded {Message} ticks.
Arguments EvNil {Message}.
Arguments EvMessage {Message} m.
Arguments EvError {Message} e.
Arguments EvOther {Message}.
Arguments sent {Message} c.
Arguments closed {Message} c.
Arguments chMessage {Message} s.
Arguments calls {Message} s.
Arguments call {Message} c st.
Arguments ctx_done {Message} t.
Arguments unsubscribe_result {Message} t.
Arguments poll_result {Message} t.
Arguments send_ready {Message} t.
Arguments iteration {Message} t st.
Arguments Finished {Message} err st.
Arguments Refused {Message} err.
Arguments Crashed {Message} p.
Arguments Running {Message} st.
Arguments loop {Message} ticks st.
Arguments newConsumer_error {Message} w.
Arguments Subscribe_error {Message} w.
Arguments ticks {Message} w.
Arguments deferred {Message} st.
Arguments subscribe {Message} w topic ch.

(** *** WriteData *)

Section WriteData.
Context `{Float64} `{Externals}.

(** [NewPoint(name, NewTags(tags), fields, t)], from the file of the points;
    the zero time is [None]. *)
Variable NewPoint :
  string -> gmap string string -> gmap string GoValue -> option Time -> Point + error.

(** [NewDataPoint] returns a point with the given timestamp, when one is
    given. *)
Definition NewDataPoint (name : string) (tags : gmap string string)
    (fields : gmap string GoValue) (t : option Time) : DataPoint + error :=
  match NewPoint name tags fields t with
  | inr err => inr err
  | inl p => inl {| pt := p |}
  end.

(** The [switch] of [WriteData] on the precision of the client. *)
Definition timeOf (precision : string) (ts : Z) : Time :=
  if String.eqb precision "s" then time_Unix ts 0
  else if String.eqb precision "us" then time_UnixMicro ts
  else if String.eqb precision "ns" then time_Unix 0 ts
  else time_UnixMilli ts.

(** [WriteData]: the error of [NewBatchPoints] is dropped, so that the batch
    is a nil interface when the precision of the client is not valid. *)
Definition WriteData (client : tsdbClient) (ts : Z) (name : string)
    (tags : gmap string string) (fields : gmap string GoValue)
  : Outcome (option error) :=
  let bps := NewBatchPoints {| cfg_Precision := DBPrecision (dbConfig client);
                               cfg_Database := DBName (dbConfig client) |} in
  let t := if ts >? 0 then Some (timeOf (DBPrecision (dbConfig client)) ts) else None in
  match NewDataPoint name tags fields t with
  | inr err => Returned (Some err)
  | inl p =>
      match bps with
      | inr _ => Panicked NilDereference
      | inl bp =>
          match httpClient client with
          | None => Panicked NilDereference
          | Some http => Returned (Client_Write http (AddPoint bp (Some p)))
          end
      end
  end.

(** [UnSubscribe] is deprecated: it does nothing and returns nil. *)
Definition UnSubscribe (client : tsdbClient) (topic : string) : option error := None.

End WriteData.

End TSDB.

(* ===================================================================== *)
(** ** options.go: the options and their defaults                         *)
(* ===================================================================== *)

Module Options.

Record DbOptions := {
  optDatabaseAddr : string;
  optDatabaseName : string;
  optPrecisionUnit : string;
  optDatabaseUser : string;
  optDatabasePass : string;
  optConvertNumber : bool;
  optTimestamp : Z
}.

(** A [DBOption] is a function that changes the options it is given: here,
    what it makes of them. *)
Definition DBOption := DbOptions -> DbOptions.

Definition DatabaseAddr (u : string) : DBOption := fun o =>
  {| optDatabaseAddr := u; optDatabaseName := optDatabaseName o;
     optPrecisionUnit := optPrecisionUnit o; optDatabaseUser := optDatabaseUser o;
     optDatabasePass := optDatabasePass o; optConvertNumber := optConvertNumber o;
     optTimestamp := optTimestamp o |}.

Definition DatabaseName (d : string) : DBOption := fun o =>
  {| optDatabaseAddr := optDatabaseAddr o; optDatabaseName := d;
     optPrecisionUnit := optPrecisionUnit o; optDatabaseUser := optDatabaseUser o;
     optDatabasePass := optDatabasePass o; optConvertNumber := optConvertNumber o;
     optTimestamp := optTimestamp o |}.

Definition PrecisionUnit (p : string) : DBOption := fun o =>
  {| optDatabaseAddr := optDatabaseAddr o; optDatabaseName := optDatabaseName o;
     optPrecisionUnit := p; optDatabaseUser := optDatabaseUser o;
     optDatabasePass := optDatabasePass o; optConvertNumber := optConvertNumber o;
     optTimestamp := optTimestamp o |}.

Definition DatabaseUser (u : string) : DBOption := fun o =>
  {| optDatabaseAddr := optDatabaseAddr o; optDatabaseName := optDatabaseName o;
     optPrecisionUnit := optPrecisionUnit o; optDatabaseUser := u;
     optDatabasePass := optDatabasePass o; optConvertNumber := optConvertNumber o;
     optTimestamp := optTimestamp o |}.

Definition DatabasePass (p : string) : DBOption := fun o =>
  {| optDatabaseAddr := optDatabaseAddr o; optDatabaseName := optDatabaseName o;
     optPrecisionUnit := optPrecisionUnit o; optDatabaseUser := optDatabaseUser o;
     optDatabasePass := p; optConvertNumber := optConvertNumber o;
     optTimestamp := optTimestamp o |}.

Definition ConvertNumber (c : bool) : DBOption := fun o =>
  {| optDatabaseAddr := optDatabaseAddr o; optDatabaseName := optDatabaseName o;
     optPrecisionUnit := optPrecisionUnit o; optDatabaseUser := optDatabaseUser o;
     optDatabasePass := optDatabasePass o; optConvertNumber := c;
     optTimestamp := optTimestamp o |}.

Definition Timestamp (ts : Z) : DBOption := fun o =>
  {| optDatabaseAddr := optDatabaseAddr o; optDatabaseName := optDatabaseName o;
     optPrecisionUnit := optPrecisionUnit o; optDatabaseUser := optDatabaseUser o;
     optDatabasePass := optDatabasePass o; optConvertNumber := optConvertNumber o;
     optTimestamp := ts |}.

Definition envDBHost : string := "SVC_IOT_TDENGINE_HOST".
Definition envDBPort : string := "SVC_IOT_TDENGINE_PORT".
Definition envDBUser : string := "SVC_IOT_TDENGINE_USER".
Definition envDBPass : string := "SVC_IOT_TDENGINE_PASS".
Definition envDBPrec : string := "SVC_IOT_TDENGINE_PREC".
Definition envDBName : string := "SVC_IOT_TDENGINE_DB".

Definition defaultOptions : DbOptions :=
  {| optDatabaseAddr := "http://127.0.0.1:6041"; optDatabaseName := "iot";
     optPrecisionUnit := "ms"; optDatabaseUser := "root"; optDatabasePass := "taosdata";
     optConvertNumber := false; optTimestamp := 0 |}.

Definition nonEmpty (v : string) : bool := (0 <? String.length v)%nat.

(** [newDBOptions]: [getenv] is [os.Getenv], empty for a variable that is not
    set.  The options of the environment come first, the ones given after
    them, and all are applied in that order to the defaults. *)
Definition newDBOptions (getenv : string -> string) (options : list DBOption) : DbOptions :=
  let opts : list DBOption := [] in
  let opts :=
    let v1 := getenv envDBHost in
    if nonEmpty v1 then
      let v2 := getenv envDBPort in
      if nonEmpty v2 then (opts ++ [DatabaseAddr ("http://" +:+ v1 +:+ ":" +:+ v2)])%list
      else (opts ++ [DatabaseAddr ("http://" +:+ v1 +:+ ":6041")])%list
    else opts in
  let opts :=
    let v := getenv envDBUser in if nonEmpty v then (opts ++ [DatabaseUser v])%list else opts in
  let opts :=
    let v := getenv envDBPass in if nonEmpty v then (opts ++ [DatabasePass v])%list else opts in
  let opts :=
    let v := getenv envDBPrec in if nonEmpty v then (opts ++ [PrecisionUnit v])%list else opts in
  let opts :=
    let v := getenv envDBName in if nonEmpty v then (opts ++ [DatabaseName v])%list else opts in
  let opts := if (0 <? length options)%nat then (opts ++ options)%list else opts in
  fold_left (fun opt o => o opt) opts defaultOptions.

End Options.

(* ===================================================================== *)
(** ** The functions of the package over the shared client                *)
(* ===================================================================== *)

Module Pkg.
Import GoTime Taos TSDB Options.

(** The error of [QueryCount]: an error value, or the number error of
    [json.Number.Int64] with the text it was given. *)
Inductive CountError :=
| CountErr (e : error)
| CountNumErr (num : string) (e : NumError).

(** [type TopicMode int8]. *)
Definition DBMode : Z := 1.
Definition STMode : Z := 2.
Definition SQLMode : Z := 3.

Section WithClient.
Context `{Float64} `{Externals}.

(** [os.Getenv], and the client the package makes once and shares. *)
Variable getenv : string -> string.
Variable clientWrapper : tsdbClient.

Definition ReadData (sql : string) (opts : list DBOption)
  : Outcome (list Row * option error) :=
  let dbOpt := newDBOptions getenv opts in
  TSDB.QueryData clientWrapper sql (optConvertNumber dbOpt).

(** The loop of the package function [QueryData] over the column meta. *)
Fixpoint column_names (meta : list (list GoValue)) (columns : list string)
  : panic + list string :=
  match meta with
  | [] => inr columns
  | cm :: meta' =>
      match cm !! 0%nat with
      | Some (VString cn) => column_names meta' (columns ++ [cn])%list
      | Some other => inl (TypeAssertion "string" other)
      | None => inl (IndexOutOfRange 0 (length cm))
      end
  end.

(** The package function [QueryData]: the column names, the data rows, the
    error. *)
Definition QueryData (sql : string) (opts : list DBOption)
  : Outcome (list string * list (list GoValue) * option error) :=
  match httpClient clientWrapper with
  | Some client =>
      let dbOpt := newDBOptions getenv opts in
      match Client_Query client
              (NewQuery sql (optDatabaseName dbOpt) (optPrecisionUnit dbOpt)) with
      | (_, Some e) => Returned ([], [], Some e)
      | (None, None) => Panicked NilDereference
      | (Some resp, None) =>
          match column_names (ColumnMeta resp) [] with
          | inl p => Panicked p
          | inr columns => Returned (columns, Data resp, None)
          end
      end
  | None => Returned ([], [], Some (errors_New "default http client is nil"))
  end.

(** The statement [QueryCount] sends. *)
Definition QueryCount_sql (field tableName filter : string) : string :=
  let sql := "select count(`" +:+ field +:+ "`) as `count` from `" +:+ tableName +:+ "` " in
  let sql :=
    if (0 <? String.length filter)%nat then
      if Escape.HasPrefix filter "where" then sql +:+ filter
      else sql +:+ ("where " +:+ filter)
    else sql in
  sql +:+ ";".

Definition QueryCount (field tableName filter : string)
  : Outcome (Z * option CountError) :=
  match TSDB.QueryData clientWrapper (QueryCount_sql field tableName filter) false with
  | Panicked p => Panicked p
  | Returned (_, Some e) => Returned (0, Some (CountErr e))
  | Returned ([], None) => Returned (0, None)
  | Returned (row :: _, None) =>
      match row !! "count" with
      | Some (VNumber num) =>
          Returned (fst (Number_Int64 num), option_map (CountNumErr num) (snd (Number_Int64 num)))
      | Some other => Panicked (TypeAssertion "json.Number" other)
      | None => Returned (-1, Some (CountErr (errors_New "not result field: count")))
      end
  end.



Definition GetDatabaseName : string := optDatabaseName (newDBOptions getenv []).

(** The package function [WriteData]; [NewPoint] as for the method. *)
Definition WriteData
    (NewPoint : string -> gmap string string -> gmap string GoValue -> option Time
                -> Point + error)
    (name : string) (tag : gmap string string) (fields : gmap string GoValue)
    (opts : list DBOption) : Outcome (option error) :=
  let dbOpt := newDBOptions getenv opts in
  TSDB.WriteData NewPoint clientWrapper (optTimestamp dbOpt) name tag fields.

(** subscribe.go: the statements of the topics. *)
Definition CreateTopic (topic content : string) (mode : Z) : Outcome (option error) :=
  if (String.length topic =? 0)%nat || (String.length content =? 0)%nat then
    Returned (Some (errors_New "miss args: `topic` or `content`"))
  else
    let sql :=
      if mode =? DBMode then
        Some ("create topic if not exists " +:+ topic +:+ " as database " +:+ content)
      else if mode =? STMode then
        Some ("create topic if not exists " +:+ topic +:+ " as stable " +:+ content)
      else if mode =? SQLMode then
        Some ("create topic if not exists " +:+ topic +:+ " as " +:+ content)
      else None in
    match sql with
    | None => Returned (Some (fmt_Errorf "not support mode: %d" [ArgInt mode]))
    | Some sql =>
        match ReadData sql [] with
        | Panicked p => Panicked p
        | Returned (_, err) => Returned err
        end
    end.

Definition DropTopic (topic : string) : Outcome (option error) :=
  if (String.length topic =? 0)%nat then
    Returned (Some (fmt_Errorf "invalid args: `topic` is empty" []))
  else
    match ReadData ("drop topic if exists " +:+ topic) [] with
    | Panicked p => Panicked p
    | Returned (_, err) => Returned err
    end.

End WithClient.

End Pkg.

(* ===================================================================== *)
(** ** A concrete setting, for the examples                               *)
(* ===================================================================== *)

Module Sample.
Import GoTime Taos TSDB.

(** No fraction ever adds a nanosecond, every float text reads as zero. *)
Definition float64 : Float64 :=
  {| frac_of_unit := fun _ _ _ => 0; strconv_ParseFloat := fun _ => 0%float |}.

(** Points are their own line; an empty body decodes to EOF, as with the
    decoder of the library, and any other body to the zero response. *)
Definition externals : Externals :=
  {| Point := string;
     Point_PrecisionString := fun p _ => p;
     gzip_bytes := fun s => "gzip:" +:+ s;
     path_Join := fun a b => a +:+ "/" +:+ b;
     URL_String := fun u => Scheme u +:+ "://" +:+ Host u +:+ Path u;
     http_NewRequest_error := fun _ _ => None;
     URL_Query := fun _ => ∅;
     mime_ParseMediaType := fun v => v;
     json_Decode := fun b =>
       match content b with
       | EmptyString => DecodeFailed "EOF"
       | _ => Decoded Response_zero
       end |}.

#[local] Existing Instance float64.
#[local] Existing Instance externals.

(** An empty batch for the database iot, with the default precision. *)
Definition batch_ms : batchpoints :=
  {| points := []; database := "iot"; precision := "ms";
     retentionPolicy := ""; writeConsistency := "" |}.

(** An HTTP client whose server answers every request with [resp]. *)
Definition client_getting (resp : HTTPResponse) : client :=
  {| url := {| Scheme := "http"; Host := "127.0.0.1:6041"; Path := ""; RawQuery := "" |};
     username := "root"; password := "taosdata"; useragent := "TDEngineDBClient";
     Taos.httpClient := fun _ => inl resp;
     encoding := DefaultEncoding |}.

(** Status 404, a JSON content type, an empty body. *)
Definition not_found_empty : HTTPResponse :=
  {| StatusCode := 404; ContentType := "application/json";
     RespBody := {| content := ""; read_err := None |} |}.

(** Status 200, a JSON content type, an empty body. *)
Definition ok_empty : HTTPResponse :=
  {| StatusCode := 200; ContentType := "application/json";
     RespBody := {| content := ""; read_err := None |} |}.

(** Status 204 without a body, the answer to a write. *)
Definition no_content : HTTPResponse :=
  {| StatusCode := 204; ContentType := ""; RespBody := {| content := ""; read_err := None |} |}.

Definition cpu_point : DataPoint := {| pt := "cpu,host=a value=1i 1700000000000" |}.

(** A batch with a nil point and a point. *)
Definition batch_nil_cpu : batchpoints :=
  {| points := [None; Some cpu_point]; database := "iot"; precision := "ms";
     retentionPolicy := ""; writeConsistency := "" |}.

(** A wrapper client whose HTTP client answers every query with [resp]. *)
Definition client_answering (resp : Response) (dflt : GoValue)
  : tsdbClient :=
  {| httpClient :=
       Some {| Client_Query := fun _ => (Some resp, None);
               Client_Write := fun _ => None |};
     dbConfig := {| DBAddr := "http://127.0.0.1:6041"; DBName := "iot";
                    DBPrecision := "ms"; DBUser := "root"; DBPass := "taosdata" |};
     initialErr := None;
     defaultNumberValue := dflt |}.

(** Column meta [["n","BIGINT",8],["s","TIMESTAMP",8]], as decoded. *)
Definition meta_n_s : list (list GoValue) :=
  [ [VString "n"; VString "BIGINT"; VNumber "8"];
    [VString "s"; VString "TIMESTAMP"; VNumber "8"] ].

(** The row [42, "2024-01-01T00:00:00.000000000Z"], the number as a
    [json.Number]. *)
Definition data_42 : list (list GoValue) :=
  [ [VNumber "42"; VString "2024-01-01T00:00:00.000000000Z"] ].

Definition response_n_s : Response :=
  {| Code := 0; Desc := ""; ColumnMeta := meta_n_s; Data := data_42; Rows := 1 |}.


(** A triple whose name is a number. *)
Definition response_name_not_string : Response :=
  {| Code := 0; Desc := "";
     ColumnMeta := [ [VNumber "1"; VString "INT"; VNumber "4"] ];
     Data := [ [VNumber "7"] ]; Rows := 1 |}.

(** A triple whose type is null. *)
Definition response_type_not_string : Response :=
  {| Code := 0; Desc := "";
     ColumnMeta := [ [VString "n"; VNil; VNumber "4"] ];
     Data := [ [VNumber "7"] ]; Rows := 1 |}.

(** A TIMESTAMP column with a null cell. *)
Definition response_null_timestamp : Response :=
  {| Code := 0; Desc := "";
     ColumnMeta := [ [VString "t"; VString "TIMESTAMP"; VNumber "8"] ];
     Data := [ [VNil] ]; Rows := 1 |}.

(** The server reports that the table does not exist. *)
Definition response_no_table : Response :=
  {| Code := 9826; Desc := "Table does not exist"; ColumnMeta := []; Data := [];
     Rows := 0 |}.


(** Two passes of the subscription loop: a message arrives and is sent on,
    then the context is done; [unsub] is what [Unsubscribe] answers. *)
Definition ticks_message_then_done (unsub : option error) : list (Tick string) :=
  [ {| ctx_done := false; unsubscribe_result := None;
       poll_result := EvMessage "m1"; send_ready := true |};
    {| ctx_done := true; unsubscribe_result := unsub;
       poll_result := EvNil; send_ready := true |} ].

Definition world_message_then_done (unsub : option error) : World string :=
  {| newConsumer_error := None; Subscribe_error := None;
     ticks := ticks_message_then_done unsub |}.

Definition open_channel : Channel string := {| sent := []; closed := false |}.

(** The pieces for the further examples. *)

(** A response body that holds a value: the decoder of [externals] gives the
    zero response for it. *)
Definition ok_json : HTTPResponse :=
  {| StatusCode := 200; ContentType := "application/json";
     RespBody := {| content := "{}"; read_err := None |} |}.

Definition bad_request_text : HTTPResponse :=
  {| StatusCode := 400; ContentType := "text/plain";
     RespBody := {| content := "unable to parse points"; read_err := None |} |}.

(** A decoder that finds the response [r] in every body. *)
Definition externals_decoding (r : Response) : Externals :=
  {| Point := string;
     Point_PrecisionString := fun p _ => p;
     gzip_bytes := fun s => "gzip:" +:+ s;
     path_Join := fun a b => a +:+ "/" +:+ b;
     URL_String := fun u => Scheme u +:+ "://" +:+ Host u +:+ Path u;
     http_NewRequest_error := fun _ _ => None;
     URL_Query := fun _ => ∅;
     mime_ParseMediaType := fun v => v;
     json_Decode := fun _ => Decoded r |}.

(** The server version as the only cell of the only row. *)
Definition response_version : Response :=
  {| Code := 0; Desc := ""; ColumnMeta := [ [VString "version"; VString "VARCHAR"; VNumber "32"] ];
     Data := [ [VString "3.3.0.0"] ]; Rows := 1 |}.

(** An application error and no data. *)
Definition response_auth_failure : Response :=
  {| Code := 855; Desc := "Authentication failure"; ColumnMeta := []; Data := [];
     Rows := 0 |}.

(** A count. *)
Definition response_count (num : string) : Response :=
  {| Code := 0; Desc := ""; ColumnMeta := [ [VString "count"; VString "BIGINT"; VNumber "8"] ];
     Data := [ [VNumber num] ]; Rows := 1 |}.

(** Two columns, the first a placeholder. *)
Definition response_placeholder : Response :=
  {| Code := 0; Desc := "";
     ColumnMeta := [ [VString "_"; VString "INT"; VNumber "4"];
                     [VString "v"; VString "DOUBLE"; VNumber "8"] ];
     Data := [ [VNumber "1"; VNumber "2.5"] ]; Rows := 1 |}.

(** An address always parses, to a URL with the scheme http. *)
Definition url_Parse (addr : string) : URL + error :=
  inl {| Scheme := "http"; Host := addr; Path := ""; RawQuery := "" |}.

Definition config_gzip : HTTPConfig :=
  {| Addr := "127.0.0.1:6041"; Username := "root"; Password := "taosdata";
     UserAgent := ""; Transport := fun _ => inl no_content;
     WriteEncoding := GzipEncoding |}.

(** Points need a name; the line of a point is its name. *)
Definition NewPoint (name : string) (tags : gmap string string)
    (fields : gmap string GoValue) (t : option GoTime.Time) : string + error :=
  if String.eqb name "" then inr (errors_New "point without name is unsupported")
  else inl name.

(** An environment without any of the variables, and one with a database. *)
Definition getenv_empty (name : string) : string := "".
Definition getenv_db (name : string) : string :=
  if String.eqb name Options.envDBName then "meters" else "".

(** A wrapper client with the precision [prec] that writes through an HTTP
    client that takes everything. *)
Definition client_with_precision (prec : string) : tsdbClient :=
  {| httpClient :=
       Some {| Client_Query := fun _ => (Some Response_zero, None);
               Client_Write := fun _ => None |};
     dbConfig := {| DBAddr := "http://127.0.0.1:6041"; DBName := "iot";
                    DBPrecision := prec; DBUser := "root"; DBPass := "taosdata" |};
     initialErr := None;
     defaultNumberValue := VNil |}.

(** Three passes: a message sent on, a message dropped, an error. *)
Definition ticks_send_drop_error : list (Tick string) :=
  [ {| ctx_done := false; unsubscribe_result := None;
       poll_result := EvMessage "m1"; send_ready := true |};
    {| ctx_done := false; unsubscribe_result := None;
       poll_result := EvMessage "m2"; send_ready := false |};
    {| ctx_done := false; unsubscribe_result := None;
       poll_result := EvError (foreign_error "connection lost"); send_ready := true |} ].

Definition world_send_drop_error : World string :=
  {| newConsumer_error := None; Subscribe_error := None;
     ticks := ticks_send_drop_error |}.

(** Status 400 with a JSON body. *)
Definition bad_request_json : HTTPResponse :=
  {| StatusCode := 400; ContentType := "application/json";
     RespBody := {| content := "{}"; read_err := None |} |}.

Definition externals_no_table : Externals := externals_decoding response_no_table.
Definition externals_auth_failure : Externals := externals_decoding response_auth_failure.
Definition externals_version : Externals := externals_decoding response_version.

(** A wrapper client over the HTTP client [c]. *)
Definition client_over (ext : Externals) (c : client) : @tsdbClient ext :=
  {| httpClient := Some (@Client_of_client ext c);
     dbConfig := {| DBAddr := "http://127.0.0.1:6041"; DBName := "iot";
                    DBPrecision := "ms"; DBUser := "root"; DBPass := "taosdata" |};
     initialErr := None;
     defaultNumberValue := VNil |}.

End Sample.

(* ===================================================================== *)
(** * Properties                                                          *)
(* ===================================================================== *)

Section EscapeProps.
Import Escape.

Lemma reserved_cases c :
  reserved c = true -> c = ","%char \/ c = dquote \/ c = " "%char \/ c = "="%char.
Proof.
  unfold reserved. rewrite !orb_true_iff, !Ascii.eqb_eq. tauto.
Qed.

Lemma IndexByte_head c s : IndexByte (String c s) c = 0.
Proof. cbn [IndexByte]. now rewrite Ascii.eqb_refl. Qed.

Lemma String0_cons c s :
  reserved c = true ->
  String0 (String c s) = String backslash (String c (String0 s)).
Proof.
  intros H. unfold String0, Replace.
  destruct (reserved_cases c H) as [-> | [-> | [-> | ->]]]; reflexivity.
Qed.

Lemma Replace_unescaper_escaped c s :
  reserved c = true ->
  Replace unescaper (String backslash (String c s)) = String c (Replace unescaper s).
Proof.
  intros H. unfold Replace.
  destruct (reserved_cases c H) as [-> | [-> | [-> | ->]]]; reflexivity.
Qed.

Lemma Replace_unescaper_String0 s :
  all_reserved s = true -> Replace unescaper (String0 s) = s.
Proof.
  induction s as [| c s IH]; simpl; [reflexivity |].
  rewrite andb_true_iff. intros [Hc Hs].
  rewrite String0_cons, Replace_unescaper_escaped by exact Hc.
  now rewrite IH.
Qed.

(** C3. For every string made only of the reserved characters comma, double
    quote, space and equals sign, unescaping the escaped string gives the
    string back: [UnescapeString (String0 s) = s]. *)
Theorem UnescapeString_String0 (s : string) :
  all_reserved s = true -> UnescapeString (String0 s) = s.
Proof.
  intros H. destruct s as [| c s]; [reflexivity |].
  simpl in H. apply andb_true_iff in H as [Hc Hs].
  unfold UnescapeString. rewrite (String0_cons c s Hc), IndexByte_head.
  change (Z.eqb 0 (-1)) with false. cbv iota.
  rewrite (Replace_unescaper_escaped c _ Hc).
  now rewrite (Replace_unescaper_String0 s Hs).
Qed.

End EscapeProps.

Section QueryDataProps.
Import GoTime Taos TSDB.
Context `{Float64} `{Externals}.

Lemma QueryData_answers client sql cv resp :
  answers client sql resp ->
  QueryData client sql cv =
    match Response_Error resp with
    | Some ErrNotExistsTable => Returned ([], None)
    | Some err => Returned ([], Some err)
    | None => rows client cv (ColumnMeta resp) (Data resp) []
    end.
Proof.
  intros (http & Hc & He & Hq). unfold QueryData. now rewrite Hc, He, Hq.
Qed.

(** C1. A response with column meta [["n","BIGINT",8],["s","TIMESTAMP",8]]
    and the single row [42, "2024-01-01T00:00:00.000000000Z"] (42 a
    json.Number), carrying no error, makes [QueryData] with number conversion
    return exactly one row: n is the int64 42 and s the int64 1704067200, the
    Unix seconds of the timestamp. *)
Theorem QueryData_bigint_timestamp client sql resp :
  answers client sql resp ->
  Response_Error resp = None ->
  ColumnMeta resp = Sample.meta_n_s ->
  Data resp = Sample.data_42 ->
  QueryData client sql true =
    Returned ([ {[ "n" := VInt64 42; "s" := VInt64 1704067200 ]} ], None).
Proof.
  intros Ha He Hm Hd.
  rewrite (QueryData_answers _ _ _ _ Ha), He, Hm, Hd.
  vm_compute. reflexivity.
Qed.

(** C2. [Response.Error] gives the sentinel [ErrNotExistsTable] exactly when
    the code of the response is 9826 or 9750; and when the response of the
    query gives that sentinel, [QueryData] returns no rows and a nil error. *)
Theorem QueryData_table_not_exists client sql cv resp :
  answers client sql resp ->
  (Response_Error resp = Some ErrNotExistsTable <->
     (Code resp = 9826 \/ Code resp = 9750)) /\
  (Response_Error resp = Some ErrNotExistsTable ->
     QueryData client sql cv = Returned ([], None)).
Proof.
  intros Ha. split.
  - unfold Response_Error.
    destruct (Z.eqb_spec (Code resp) 9826) as [E1 | N1];
      destruct (Z.eqb_spec (Code resp) 9750) as [E2 | N2];
      destruct (negb (Code resp =? 0) || (0 <? String.length (Desc resp))%nat) eqn:E0;
      cbn; split; intros Hx; try discriminate; try tauto; try lia.
    all: exfalso; apply orb_false_iff in E0 as [E0 _];
      apply negb_false_iff, Z.eqb_eq in E0; lia.
  - intros He. now rewrite (QueryData_answers _ _ _ _ Ha), He.
Qed.

Lemma column_Return client cv r i c row res :
  column client cv r i c row = Return res -> res = ([], Some errColumnMeta).
Proof.
  unfold column. intros Hc.
  destruct (negb (length c =? 3)%nat); [now inversion Hc |].
  repeat (match type of Hc with
          | context [match ?x with _ => _ end] => destruct x
          end; try discriminate).
Qed.




Lemma convert_ok client c ri cn ctype sz :
  c = [VString cn; VString ctype; sz] ->
  cell_ok c ri = true -> String.eqb cn "_" = false ->
  exists v, convert client ctype ri = inr v.
Proof.
  intros -> Hc Hn. cbn in Hc. rewrite Hn in Hc. unfold convert.
  destruct (string_in ctype integer_types); [destruct ri; eauto |].
  destruct (string_in ctype float_types); [destruct ri; eauto |].
  destruct (String.eqb ctype "TIMESTAMP"); [| eauto].
  destruct ri; try discriminate. destruct (Parse s); eauto.
Qed.

Lemma column_no_panic client cv r i c row ri :
  entry_ok c = true -> r !! i = Some ri -> cell_ok c ri = true ->
  forall p, column client cv r i c row <> Panic p.
Proof.
  intros He Hr Hc p. unfold column.
  destruct (negb (length c =? 3)%nat) eqn:El; [discriminate |].
  apply negb_false_iff, Nat.eqb_eq in El.
  destruct c as [| c0 [| c1 [| c2 [| ? ?]]]]; try discriminate El.
  destruct c0; try discriminate He. destruct c1; try discriminate He.
  cbn [lookup list_lookup]. destruct (String.eqb s "_") eqn:En; [discriminate |].
  rewrite Hr. destruct cv; [| discriminate].
  destruct (convert_ok client _ ri s s0 c2 eq_refl Hc En) as [v ->]. discriminate.
Qed.

Lemma columns_no_panic client cv r cs :
  forall i row,
  Forall (fun c => entry_ok c = true) cs ->
  (forall j c, cs !! j = Some c ->
     exists ri, r !! (i + j)%nat = Some ri /\ cell_ok c ri = true) ->
  forall p, columns client cv r i cs row <> Panic p.
Proof.
  induction cs as [| c cs IH]; intros i row Hok Hcells p; cbn [columns]; [discriminate |].
  inversion Hok as [| ? ? Hc Hcs]; subst.
  destruct (Hcells 0%nat c eq_refl) as (ri & Hr & Hcell). rewrite Nat.add_0_r in Hr.
  pose proof (column_no_panic client cv r i c row ri Hc Hr Hcell) as Hnp.
  destruct (column client cv r i c row) as [row' | res | q]; [| discriminate |].
  - apply IH; [assumption |]. intros j c' Hj.
    destruct (Hcells (S j) c' Hj) as (ri' & Hr' & Hc').
    exists ri'. split; [| assumption]. now replace (S i + j)%nat with (i + S j)%nat by lia.
  - exfalso. now apply (Hnp q).
Qed.

Lemma rows_no_panic client cv meta data :
  Forall (fun c => entry_ok c = true) meta ->
  Forall (row_ok meta) data ->
  forall result, exists res, rows client cv meta data result = Returned res.
Proof.
  intros Hm Hd. induction Hd as [| r data [Hlen Hcells] _ IH]; intros result; cbn [rows].
  - eauto.
  - assert (Hc : forall j c, meta !! j = Some c ->
               exists ri, r !! (0 + j)%nat = Some ri /\ cell_ok c ri = true).
    { intros j c Hj. destruct (lookup_lt_is_Some_2 r j) as [ri Hr].
      - apply lookup_lt_Some in Hj. lia.
      - exists ri. split; [exact Hr | exact (Hcells j c ri Hj Hr)]. }
    pose proof (columns_no_panic client cv r meta 0 ∅ Hm Hc) as Hnp.
    destruct (columns client cv r 0 meta ∅) as [row | res | p]; [apply IH | eauto |].
    exfalso. now apply (Hnp p).
Qed.

Lemma columns_Return client cv r cs : forall i row res,
  columns client cv r i cs row = Return res -> res = ([], Some errColumnMeta).
Proof.
  induction cs as [| c cs IH]; intros i row res; cbn [columns]; [discriminate |].
  destruct (column client cv r i c row) as [row' | res' | p] eqn:Ec.
  - apply IH.
  - intros [= <-]. now apply column_Return in Ec.
  - discriminate.
Qed.


(** C10. [QueryData] with number conversion asserts types without a check.
    It returns for every answered response in which each column meta triple
    has strings for name and type and each row has a cell for every column,
    a string in every named TIMESTAMP column; and it panics on a triple
    whose name is not a string, on one whose type is not a string, and on a
    TIMESTAMP cell that is not a string, instead of returning an error. *)
Theorem QueryData_unchecked_assertions client sql :
  (forall resp, answers client sql resp -> response_ok resp ->
     exists res, QueryData client sql true = Returned res) /\
  (answers client sql Sample.response_name_not_string ->
     QueryData client sql true = Panicked (TypeAssertion "string" (VNumber "1"))) /\
  (answers client sql Sample.response_type_not_string ->
     QueryData client sql true = Panicked (TypeAssertion "string" VNil)) /\
  (answers client sql Sample.response_null_timestamp ->
     QueryData client sql true = Panicked (TypeAssertion "string" VNil)).
Proof.
  split; [| repeat split].
  - intros resp Ha [Hm Hd]. rewrite (QueryData_answers _ _ _ _ Ha).
    destruct (Response_Error resp) as [[] |]; eauto.
    now apply rows_no_panic.
  - intros Ha. now rewrite (QueryData_answers _ _ _ _ Ha).
  - intros Ha. now rewrite (QueryData_answers _ _ _ _ Ha).
  - intros Ha. now rewrite (QueryData_answers _ _ _ _ Ha).
Qed.

End QueryDataProps.

Section TimeParseProps.
Import GoTime.

(** The elements of [tsdbLayout] spell the layout constant of the client. *)
Lemma tsdbLayout_text : layoutText tsdbLayout tsdbLayoutTail = tsdbTimeStampFormat.
Proof. reflexivity. Qed.

(** The timestamp of the first second of 2024, and of the epoch. *)
Lemma Parse_2024 :
  Parse "2024-01-01T00:00:00.000000000Z"
  = Some {| Time_sec := 1704067200; Time_nsec := 0 |}.
Proof. vm_compute. reflexivity. Qed.

Lemma Parse_epoch :
  Parse "1970-01-01T00:00:00Z" = Some {| Time_sec := 0; Time_nsec := 0 |}.
Proof. vm_compute. reflexivity. Qed.

(** A timestamp in another shape does not parse. *)
Lemma Parse_space_separated : Parse "2024-01-01 00:00:00.000" = None.
Proof. vm_compute. reflexivity. Qed.

Lemma ParseInt_42 : ParseInt "42" = (42, None).
Proof. vm_compute. reflexivity. Qed.

Lemma ParseInt_min : ParseInt "-9223372036854775808" = (- 2 ^ 63, None).
Proof. vm_compute. reflexivity. Qed.

Lemma ParseInt_overflow : ParseInt "9223372036854775808" = (2 ^ 63 - 1, Some ErrRange).
Proof. vm_compute. reflexivity. Qed.

Lemma ParseInt_fraction : ParseInt "4.2" = (0, Some ErrSyntax).
Proof. vm_compute. reflexivity. Qed.

End TimeParseProps.

Section ParseDurationProps.
Import GoTime.
Context `{Float64}.

Lemma leadingInt_from_length s : forall x v r,
  leadingInt_from s x = Some (v, r) -> (String.length r <= String.length s)%nat.
Proof.
  induction s as [| c s IH]; intros x v r; cbn [leadingInt_from].
  - intros [= _ <-]. reflexivity.
  - destruct (isDigitChar c).
    + destruct (x >? 2 ^ 63 / 10); [discriminate |].
      destruct (x * 10 + digitVal c >? 2 ^ 63); [discriminate |].
      intros E. apply IH in E. cbn [String.length]. lia.
    + intros [= _ <-]. reflexivity.
Qed.

Lemma leadingFraction_from_length s : forall x k o f k' r,
  leadingFraction_from s x k o = (f, k', r) -> (String.length r <= String.length s)%nat.
Proof.
  induction s as [| c s IH]; intros x k o f k' r; cbn [leadingFraction_from].
  - intros [= _ _ <-]. reflexivity.
  - destruct (isDigitChar c).
    + cbn [String.length].
      destruct o; [intros E; apply IH in E; lia |].
      destruct (x >? (2 ^ 63 - 1) / 10); [intros E; apply IH in E; lia |].
      destruct (x * 10 + digitVal c >? 2 ^ 63); intros E; apply IH in E; lia.
    + intros [= _ _ <-]. reflexivity.
Qed.

Lemma unitSpan_length s : forall u r,
  unitSpan s = (u, r) -> String.length s = (String.length u + String.length r)%nat.
Proof.
  induction s as [| c s IH]; intros u r; cbn [unitSpan].
  - intros [= <- <-]. reflexivity.
  - destruct (Ascii.eqb c "." || isDigitChar c).
    + intros [= <- <-]. reflexivity.
    + destruct (unitSpan s) as [u' r'] eqn:E. intros [= <- <-].
      cbn [String.length]. now rewrite (IH u' r' eq_refl).
Qed.

(** Every pass of the loop of [ParseDuration] takes at least one byte. *)
Lemma parseTerm_shorter orig s v r :
  parseTerm orig s = inl (v, r) -> (String.length r < String.length s)%nat.
Proof.
  unfold parseTerm. destruct s as [| c0 s0]; [discriminate |].
  destruct (negb (Ascii.eqb c0 "." || isDigitChar c0)); [discriminate |].
  destruct (leadingInt (String c0 s0)) as [[v1 s1] |] eqn:Ei; [| discriminate].
  apply leadingInt_from_length in Ei.
  destruct (match s1 with
            | String "." s1' => _
            | _ => _
            end) as [[[f k] post] s2] eqn:Es2.
  assert (Hs2 : (String.length s2 <= String.length s1)%nat).
  { clear - Es2. destruct s1 as [| c1 s1']; [injection Es2 as _ _ _ <-; reflexivity |].
    destruct (Ascii.eqb_spec c1 ".") as [-> | Hne].
    - destruct (leadingFraction s1') as [[f' k'] s2'] eqn:Ef.
      injection Es2 as _ _ _ <-. apply leadingFraction_from_length in Ef.
      cbn [String.length]. lia.
    - destruct c1 as [[] [] [] [] [] [] [] []];
        try (injection Es2 as _ _ _ <-; reflexivity).
      now contradiction Hne. }
  clear Es2.
  destruct (negb _ && negb post); [discriminate |].
  destruct (unitSpan s2) as [u s3] eqn:Eu. apply unitSpan_length in Eu.
  destruct u as [| cu u']; [discriminate |]. cbn [String.length] in Eu.
  destruct (unitMap (String cu u')) as [unit |]; [| discriminate].
  destruct (v1 >? 2 ^ 63 / unit); [discriminate |].
  cbn [String.length] in *.
  destruct (f >? 0).
  - destruct (_ >? 2 ^ 63); [discriminate |]. intros [= _ <-]. lia.
  - intros [= _ <-]. lia.
Qed.

(** The length of the text is enough fuel for the loop: the branch of
    [ParseDuration] for fuel that ran out is never taken. *)
Lemma parseTerms_fuel fuel : forall orig s d,
  (String.length s <= fuel)%nat -> parseTerms fuel orig s d <> None.
Proof.
  induction fuel as [| fuel IH]; intros orig s d Hlen.
  - destruct s; [discriminate | cbn [String.length] in Hlen; lia].
  - destruct s as [| c s']; [discriminate |]. cbn [parseTerms].
    destruct (parseTerm orig (String c s')) as [[v rest] | e] eqn:Et; [| discriminate].
    apply parseTerm_shorter in Et.
    cbv zeta. destruct ((d + v) mod 2 ^ 64 >? 2 ^ 63); [discriminate |].
    apply IH. lia.
Qed.

Lemma plainUnit_cons c r :
  plainUnit (String c r) = true ->
  Ascii.eqb c "." = false /\ isDigitChar c = false /\ plainUnit r = true.
Proof.
  cbn [plainUnit]. destruct (Ascii.eqb c "."); [discriminate |].
  destruct (isDigitChar c); [discriminate |]. auto.
Qed.

Lemma unitSpan_plain u : plainUnit u = true -> unitSpan u = (u, "").
Proof.
  induction u as [| c r IH]; [reflexivity |].
  intros Hp. apply plainUnit_cons in Hp as (Hdot & Hdig & Hr).
  cbn [unitSpan]. now rewrite Hdot, Hdig, (IH Hr).
Qed.

Lemma leadingInt_from_plain u x : plainUnit u = true -> leadingInt_from u x = Some (x, u).
Proof.
  destruct u as [| c r]; [reflexivity |].
  intros Hp. apply plainUnit_cons in Hp as (_ & Hdig & _).
  cbn [leadingInt_from]. now rewrite Hdig.
Qed.

Lemma unitMap_durationUnits u : (exists unit, unitMap u = Some unit) <-> In u durationUnits.
Proof.
  unfold unitMap, durationUnits. cbn [In].
  repeat match goal with
         | |- context [String.eqb u ?k] => destruct (String.eqb_spec u k) as [? | ?]
         end.
  all: split; [intros [unit E]; try discriminate E; auto 10 | intros Hin; eauto].
  all: repeat (destruct Hin as [Hin | Hin]; [symmetry in Hin; contradiction |]); destruct Hin.
Qed.

Lemma unitMap_value u unit :
  unitMap u = Some unit ->
  In unit [Nanosecond; Microsecond; Millisecond; Second; Minute; Hour].
Proof.
  unfold unitMap.
  repeat match goal with
         | |- context [String.eqb u ?k] => destruct (String.eqb u k)
         end.
  all: intros [= <-]; cbn [In]; auto 10.
Qed.

(** One pass over the text made of 1 and a plain text [u]: the unit is [u]
    as a whole. *)
Lemma parseTerm_one_plain orig u :
  plainUnit u = true ->
  parseTerm orig (String "1" u) =
    match u with
    | EmptyString => inr (MissingUnit orig)
    | _ =>
        match unitMap u with
        | None => inr (UnknownUnit u orig)
        | Some unit => inl (unit, "")
        end
    end.
Proof.
  intros Hp. unfold parseTerm.
  change (Ascii.eqb "1" "." || isDigitChar "1") with true. cbn [negb].
  change (leadingInt (String "1" u)) with (leadingInt_from u 1).
  rewrite (leadingInt_from_plain u 1 Hp).
  destruct (match u with
            | String "." s1' => _
            | _ => _
            end) as [[[f k] post] s2] eqn:Es2.
  assert (Es : (f, k, post, s2) = (0, 0%nat, false, u)).
  { rewrite <- Es2. clear - Hp. destruct u as [| c r]; [reflexivity |].
    apply plainUnit_cons in Hp as (Hdot & _ & _).
    destruct c as [[] [] [] [] [] [] [] []]; try reflexivity; discriminate Hdot. }
  clear Es2. injection Es as -> -> -> ->.
  assert (Hlen : Nat.eqb (String.length (String "1" u)) (String.length u) = false).
  { apply Nat.eqb_neq. cbn [String.length]. lia. }
  rewrite Hlen, (unitSpan_plain u Hp). cbn [negb andb].
  destruct u as [| c r]; [reflexivity |].
  destruct (unitMap (String c r)) as [unit |] eqn:Eu; [| reflexivity].
  apply unitMap_value in Eu.
  assert (Hdiv : (1 >? 2 ^ 63 / unit) = false).
  { cbn [In] in Eu. decompose [or] Eu; subst; try contradiction; vm_compute; reflexivity. }
  rewrite Hdiv. change (0 >? 0) with false. cbv iota. now rewrite Z.mul_1_l.
Qed.

(** [ParseDuration] on the text made of 1 and a plain text: the unit map
    decides. *)
Lemma ParseDuration_one_plain u :
  plainUnit u = true ->
  ParseDuration (String "1" u) =
    match unitMap u with
    | Some unit => inl unit
    | None =>
        inr (match u with
             | EmptyString => MissingUnit (String "1" u)
             | _ => UnknownUnit u (String "1" u)
             end)
    end.
Proof.
  intros Hp. unfold ParseDuration.
  change (Ascii.eqb "1" "-") with false. change (Ascii.eqb "1" "+") with false. cbv iota.
  assert (E0 : String.eqb (String "1" u) "0" = false) by reflexivity.
  rewrite E0. cbn [String.length parseTerms]. rewrite (parseTerm_one_plain _ u Hp).
  destruct u as [| c r]; [reflexivity |].
  destruct (unitMap (String c r)) as [unit |] eqn:Eu; [| reflexivity].
  apply unitMap_value in Eu. cbv zeta.
  cbn [In] in Eu. decompose [or] Eu; subst; try contradiction; vm_compute; reflexivity.
Qed.

End ParseDurationProps.

Section BatchPointsProps.
Import GoTime Taos.
Context `{Float64} `{Externals}.

Lemma ParseDuration_1ms : ParseDuration "1ms" = inl 1000000.
Proof. vm_compute. reflexivity. Qed.

Lemma ParseDuration_1h : ParseDuration "1h" = inl 3600000000000.
Proof. vm_compute. reflexivity. Qed.

Lemma ParseDuration_1 : ParseDuration "1" = inr (MissingUnit "1").
Proof. vm_compute. reflexivity. Qed.

Lemma ParseDuration_1fortnight :
  ParseDuration "1fortnight" = inr (UnknownUnit "fortnight" "1fortnight").
Proof. vm_compute. reflexivity. Qed.

Lemma SetPrecision_invalid bp u :
  validPrecision u = false ->
  fst (SetPrecision bp u) = bp /\ exists e, snd (SetPrecision bp u) = Some e.
Proof.
  unfold validPrecision, SetPrecision.
  destruct (ParseDuration ("1" +:+ u)); [discriminate | eauto].
Qed.

Lemma SetPrecision_valid bp u :
  validPrecision u = true ->
  snd (SetPrecision bp u) = None /\ Precision (fst (SetPrecision bp u)) = u /\
  Points (fst (SetPrecision bp u)) = Points bp /\
  Database (fst (SetPrecision bp u)) = Database bp.
Proof.
  unfold validPrecision, SetPrecision.
  destruct (ParseDuration ("1" +:+ u)); [auto | discriminate].
Qed.

Lemma lineProtocolUnits_valid u : In u lineProtocolUnits -> validPrecision u = true.
Proof.
  intros [<- | [<- | [<- | [<- | []]]]]; vm_compute; reflexivity.
Qed.

Lemma validPrecision_plain u :
  plainUnit u = true -> (validPrecision u = true <-> In u durationUnits).
Proof.
  intros Hp. rewrite <- unitMap_durationUnits. unfold validPrecision.
  change ("1" +:+ u) with (String "1" u). rewrite (ParseDuration_one_plain u Hp).
  destruct (unitMap u) as [unit |]; split; eauto; try discriminate.
  intros [unit E]. discriminate E.
Qed.

Lemma SetPrecision_plain_refused bp u :
  plainUnit u = true -> ~ In u durationUnits ->
  SetPrecision bp u =
    (bp, Some (time_error (match u with
                           | EmptyString => MissingUnit ("1" +:+ u)
                           | _ => UnknownUnit u ("1" +:+ u)
                           end))).
Proof.
  intros Hp Hn. rewrite <- unitMap_durationUnits in Hn. unfold SetPrecision.
  change ("1" +:+ u) with (String "1" u). rewrite (ParseDuration_one_plain u Hp).
  destruct (unitMap u) as [unit |]; [| reflexivity].
  exfalso. apply Hn. eauto.
Qed.

(** C6, as the code has it.  [SetPrecision] returns an error exactly when
    the text made of 1 and the unit does not parse as a Go duration, and then
    the batch, its precision included, is as it was; when it returns nil the
    precision is the unit given and the points and the database are as they
    were.  Among the texts without a digit and without a point the units
    taken are the eight keys of the unit map of [time.ParseDuration], the
    minute and the hour among them, not only ns, us, ms and s; every other
    such text is refused with the error of a missing or an unknown unit. *)
Theorem SetPrecision_keeps_or_sets (bp : batchpoints) (u : string) :
  (forall e, snd (SetPrecision bp u) = Some e ->
     fst (SetPrecision bp u) = bp /\
     Precision (fst (SetPrecision bp u)) = Precision bp) /\
  (snd (SetPrecision bp u) = None ->
     Precision (fst (SetPrecision bp u)) = u /\
     Points (fst (SetPrecision bp u)) = Points bp /\
     Database (fst (SetPrecision bp u)) = Database bp) /\
  ((exists e, snd (SetPrecision bp u) = Some e) <-> validPrecision u = false) /\
  (snd (SetPrecision bp u) = None <-> validPrecision u = true) /\
  (plainUnit u = true -> (snd (SetPrecision bp u) = None <-> In u durationUnits)) /\
  (plainUnit u = true -> ~ In u durationUnits ->
     SetPrecision bp u =
       (bp, Some (time_error (match u with
                              | EmptyString => MissingUnit ("1" +:+ u)
                              | _ => UnknownUnit u ("1" +:+ u)
                              end)))) /\
  (In u lineProtocolUnits ->
     snd (SetPrecision bp u) = None /\ Precision (fst (SetPrecision bp u)) = u).
Proof.
  assert (Hnil : snd (SetPrecision bp u) = None <-> validPrecision u = true).
  { split; intros Hv.
    - destruct (validPrecision u) eqn:Ev; [reflexivity |].
      destruct (SetPrecision_invalid bp u Ev) as [_ [e E]]. rewrite E in Hv. discriminate.
    - apply (SetPrecision_valid bp u Hv). }
  split; [| split; [| split; [| split; [| split; [| split]]]]].
  - intros e He. destruct (validPrecision u) eqn:Ev.
    + rewrite (proj2 Hnil eq_refl) in He. discriminate.
    + destruct (SetPrecision_invalid bp u Ev) as [E _]. now rewrite E.
  - intros Hv. apply Hnil in Hv. destruct (SetPrecision_valid bp u Hv) as (_ & E1 & E2 & E3).
    auto.
  - split.
    + intros [e He]. destruct (validPrecision u) eqn:Ev; [| reflexivity].
      rewrite (proj2 Hnil eq_refl) in He. discriminate.
    + intros Hv. apply (SetPrecision_invalid bp u Hv).
  - exact Hnil.
  - intros Hp. rewrite Hnil. now apply validPrecision_plain.
  - apply SetPrecision_plain_refused.
  - intros Hin. apply lineProtocolUnits_valid in Hin.
    destruct (SetPrecision_valid bp u Hin) as (E1 & E2 & _). now split.
Qed.

(** The precision [NewBatchPoints] checks and stores: ms for the empty one. *)
Lemma NewBatchPoints_spec conf :
  let p := if String.eqb (cfg_Precision conf) "" then "ms" else cfg_Precision conf in
  (validPrecision p = true ->
     NewBatchPoints conf =
       inl {| points := []; database := cfg_Database conf; precision := p;
              retentionPolicy := ""; writeConsistency := "" |}) /\
  (validPrecision p = false -> exists e, NewBatchPoints conf = inr e).
Proof.
  unfold validPrecision, NewBatchPoints.
  destruct (String.eqb (cfg_Precision conf) ""); cbn [cfg_Precision cfg_Database];
    destruct (ParseDuration _); split; intros; try discriminate; eauto.
Qed.

(** C7, as the code has it.  [NewBatchPoints] and [SetPrecision] take a
    precision exactly when the text made of 1 and the precision parses as a
    Go duration, the empty precision standing for ms at construction: ns, us,
    ms and s are taken, h is taken as well, and a precision for which the
    parse fails makes construction and setting fail with an error. *)
Theorem precision_accepted_iff_parses (db : string) (bp : batchpoints) (u : string) :
  let conf := {| cfg_Precision := u; cfg_Database := db |} in
  let p := if String.eqb u "" then "ms" else u in
  ((exists bp', NewBatchPoints conf = inl bp' /\ Precision bp' = p) <->
     validPrecision p = true) /\
  (snd (SetPrecision bp u) = None <-> validPrecision u = true) /\
  (validPrecision p = false -> exists e, NewBatchPoints conf = inr e) /\
  (validPrecision u = false -> exists e, snd (SetPrecision bp u) = Some e) /\
  (In u lineProtocolUnits -> validPrecision u = true /\ p = u) /\
  validPrecision "h" = true /\ validPrecision "" = false.
Proof.
  intros conf p.
  destruct (NewBatchPoints_spec conf) as [Hok Hbad]. cbn [cfg_Precision conf] in Hok, Hbad.
  fold p in Hok, Hbad.
  split; [split |]; [| | split; [split |]; [| | split; [| split; [| split; [| split]]]]].
  - intros (bp' & E & _). destruct (validPrecision p) eqn:Ev; [reflexivity |].
    destruct (Hbad eq_refl) as [e E']. rewrite E' in E. discriminate.
  - intros Hv. eexists. split; [apply (Hok Hv) | reflexivity].
  - intros E. destruct (validPrecision u) eqn:Ev; [reflexivity |].
    destruct (SetPrecision_invalid bp u Ev) as [_ [e E']]. rewrite E' in E. discriminate.
  - intros Hv. apply (SetPrecision_valid bp u Hv).
  - exact Hbad.
  - intros Hv. apply (SetPrecision_invalid bp u Hv).
  - intros Hin. split; [now apply lineProtocolUnits_valid |].
    subst p. destruct Hin as [<- | [<- | [<- | [<- | []]]]]; reflexivity.
  - vm_compute; reflexivity.
  - vm_compute; reflexivity.
Qed.

End BatchPointsProps.

Section TransportProps.
Import GoTime Taos.
Context `{Float64} `{Externals}.

Lemma append_assoc (a b c : string) : (a +:+ b) +:+ c = a +:+ (b +:+ c).
Proof.
  induction a as [| x a IH]; [reflexivity |].
  change (String x ((a +:+ b) +:+ c) = String x (a +:+ (b +:+ c))). now rewrite IH.
Qed.

Lemma append_empty_r (a : string) : a +:+ "" = a.
Proof.
  induction a as [| x a IH]; [reflexivity |].
  change (String x (a +:+ "") = String x a). now rewrite IH.
Qed.

(** The loop of [Write] appends, to what is written already, the lines of the
    points that are not nil, in their order. *)
Lemma Write_points_lines ps prec : forall written,
  Write_points ps prec written = written +:+ lines_of (omap id ps) prec.
Proof.
  induction ps as [| [p |] ps IH]; intros written; cbn [Write_points].
  - cbn. now rewrite append_empty_r.
  - rewrite IH. change (omap id (Some p :: ps)) with (p :: omap id ps).
    cbn [lines_of]. now rewrite append_assoc.
  - apply IH.
Qed.

Lemma Write_request_body c bp req :
  Write_request c bp = inl req ->
  ReqBody req =
    let written := Write_points (Points bp) (Precision bp) "" in
    if String.eqb (encoding c) GzipEncoding then gzip_bytes written else written.
Proof.
  unfold Write_request, http_NewRequest.
  destruct (http_NewRequest_error _ _); [discriminate |].
  intros [= <-].
  destruct (negb (String.eqb (encoding c) DefaultEncoding));
    destruct (negb (String.eqb (username c) "")); reflexivity.
Qed.

(** [Write] depends on the points only through what the loop writes. *)
Lemma Write_same_points c bp bp' :
  Write_points (Points bp) (Precision bp) "" = Write_points (Points bp') (Precision bp') "" ->
  Precision bp = Precision bp' -> Database bp = Database bp' ->
  Write_request c bp = Write_request c bp' /\ Write c bp = Write c bp'.
Proof.
  intros Hw Hp Hd. assert (E : Write_request c bp = Write_request c bp').
  { unfold Write_request. now rewrite Hw, Hp, Hd. }
  split; [exact E |]. unfold Write. now rewrite E.
Qed.

(** C4. For a batch that holds one nil point and one point, in either order,
    the loop of [Write] writes the line of the point followed by a newline and
    nothing else, that is the body of the request (through gzip when the
    client is set so), and the call goes as for the batch with the point
    alone: the nil point gives no error and no empty line.  In general the
    lines of the points that are not nil are written in insertion order, each
    followed by a newline. *)
Theorem Write_skips_nil_point (c : client) (bp : batchpoints) (p : DataPoint) :
  Points bp = [None; Some p] \/ Points bp = [Some p; None] ->
  let line := PrecisionString p (Precision bp) +:+ newline in
  let alone := {| points := [Some p]; database := database bp;
                  precision := precision bp; retentionPolicy := retentionPolicy bp;
                  writeConsistency := writeConsistency bp |} in
  Write_points (Points bp) (Precision bp) "" = line /\
  (forall req, Write_request c bp = inl req ->
     ReqBody req = if String.eqb (encoding c) GzipEncoding then gzip_bytes line else line) /\
  Write c bp = Write c alone /\
  (forall ps prec, Write_points ps prec "" = lines_of (omap id ps) prec).
Proof.
  intros Hps line alone.
  assert (Hw : Write_points (Points bp) (Precision bp) "" = line).
  { destruct Hps as [-> | ->]; reflexivity. }
  split; [exact Hw |]. split; [| split].
  - intros req Hreq. rewrite (Write_request_body c bp req Hreq). cbv zeta. now rewrite Hw.
  - apply Write_same_points; [| reflexivity | reflexivity]. now rewrite Hw.
  - intros ps prec. now rewrite Write_points_lines.
Qed.

(** C5, as the code has it.  When the decoder fails, [Query] drops the error
    exactly when its text is EOF (the body ended before any value) and the
    status is not 200; it then returns the zero response together with the
    error for a status other than 200, not a success.  In every other case,
    EOF with status 200 or any other decode error, a body cut off inside a
    value among them, it returns the decode error and no response. *)
Theorem Query_decode_EOF (c : client) (q : Query) (req : Request) (resp : HTTPResponse)
    (msg : string) :
  createDefaultRequest c q = inl req ->
  httpClient c req = inl resp ->
  checkResponse resp = None ->
  json_Decode (RespBody resp) = DecodeFailed msg ->
  (msg = "EOF" -> StatusCode resp <> StatusOK ->
     client_Query c q =
       (Some Response_zero,
        Some (fmt_Errorf "received status code %d from server"
                         [ArgInt (StatusCode resp)]))) /\
  (msg <> "EOF" \/ StatusCode resp = StatusOK ->
     client_Query c q =
       (None,
        Some (fmt_Errorf "unable to decode json: received status code %d err: %s"
                         [ArgInt (StatusCode resp); ArgString msg]))).
Proof.
  intros Hreq Hdo Hchk Hdec. unfold client_Query. rewrite Hreq, Hdo, Hchk, Hdec.
  split.
  - intros -> Hs. apply Z.eqb_neq in Hs. now rewrite Hs.
  - intros [Hm | Hs].
    + apply String.eqb_neq in Hm. now rewrite Hm.
    + rewrite Hs. now rewrite andb_false_r.
Qed.

End TransportProps.

Section SubscribeProps.
Import TSDB.
Context {Message : Type}.

Lemma iteration_Next_closed (t : Tick Message) st st' :
  iteration t st = Next st' ->
  closed (chMessage st') = closed (chMessage st).
Proof.
  unfold iteration. destruct (ctx_done t).
  - destruct (unsubscribe_result t); [discriminate |].
    cbn. destruct (closed (chMessage st)); discriminate.
  - destruct (poll_result t); cbn; try (intros [= <-]; reflexivity); try discriminate.
    destruct (closed (chMessage st)) eqn:Ec; [discriminate |].
    destruct (send_ready t); intros [= <-]; cbn; rewrite ?Ec; reflexivity.
Qed.

Lemma loop_Running_closed (ts : list (Tick Message)) : forall st st',
  loop ts st = Running st' ->
  closed (chMessage st') = closed (chMessage st).
Proof.
  induction ts as [| t ts IH]; intros st st'; cbn [loop].
  - now intros [= <-].
  - destruct (iteration t st) as [st1 | [err st1] | p] eqn:Ei; try discriminate.
    intros Hl. rewrite (IH _ _ Hl). now apply iteration_Next_closed in Ei.
Qed.

Lemma loop_app (pre post : list (Tick Message)) : forall st,
  loop (pre ++ post) st =
    match loop pre st with
    | Running st' => loop post st'
    | other => other
    end.
Proof.
  induction pre as [| t pre IH]; intros st; cbn [loop app]; [reflexivity |].
  destruct (iteration t st) as [st1 | [err st1] | p]; [apply IH | reflexivity ..].
Qed.

(** C9. The loop has been going through the passes [pre] and is still
    running; in the next pass the context is done.  Then that pass calls
    [Unsubscribe].  If it succeeds, the channel is closed and [subscribe]
    returns nil.  If it fails with [e], the channel stays open, nothing more is
    sent, and [subscribe] returns [e].  Either way the deferred [Unsubscribe]
    and [Close] follow on the consumer. *)
Theorem subscribe_context_done (w : World Message) (topic : string)
    (ch : Channel Message) (pre post : list (Tick Message)) (t : Tick Message)
    (st1 : State Message) :
  topic <> "" ->
  closed ch = false ->
  newConsumer_error w = None ->
  Subscribe_error w = None ->
  ticks w = (pre ++ t :: post)%list ->
  loop pre {| chMessage := ch; calls := [CallSubscribe topic] |}
    = Running st1 ->
  ctx_done t = true ->
  exists st',
    subscribe w topic (Some ch)
      = Finished (unsubscribe_result t) st' /\
    calls st' = (calls st1 ++ [CallUnsubscribe; CallUnsubscribe; CallClose])%list /\
    sent (chMessage st') = sent (chMessage st1) /\
    closed (chMessage st')
      = match unsubscribe_result t with
        | None => true
        | Some _ => false
        end.
Proof.
  intros Ht Hopen Hn Hs Hticks Hpre Hdone.
  pose proof (loop_Running_closed _ _ _ Hpre) as Hc. cbn in Hc. rewrite Hopen in Hc.
  unfold subscribe. destruct topic as [| c0 topic']; [contradiction |].
  cbn [String.length Nat.eqb]. rewrite Hn, Hs, Hticks. unfold call at 1. cbn [chMessage calls app].
  rewrite loop_app, Hpre. cbn [loop]. unfold iteration. rewrite Hdone.
  destruct (unsubscribe_result t) as [e |].
  - eexists. split; [reflexivity |]. cbn. rewrite <- !app_assoc. cbn. auto.
  - cbn [call chMessage]. rewrite Hc.
    eexists. split; [reflexivity |]. cbn. rewrite <- !app_assoc. cbn. auto.
Qed.

End SubscribeProps.

(* ===================================================================== *)
(** * The properties at concrete inputs                                   *)
(* ===================================================================== *)

Section Examples.
Import GoTime Taos TSDB.
#[local] Existing Instance Sample.float64.
#[local] Existing Instance Sample.externals.

Lemma client_answering_answers resp dflt sql :
  answers (Sample.client_answering resp dflt) sql resp.
Proof. eexists. repeat split. Defined.

Lemma QueryData_bigint_timestamp_witness :
  QueryData (Sample.client_answering Sample.response_n_s VNil) "select n, s from t" true =
    Returned ([ {[ "n" := VInt64 42; "s" := VInt64 1704067200 ]} ], None).
Proof.
  apply (QueryData_bigint_timestamp _ _ Sample.response_n_s).
  - apply client_answering_answers.
  - reflexivity.
  - reflexivity.
  - reflexivity.
Defined.

Lemma QueryData_table_not_exists_witness :
  Response_Error Sample.response_no_table = Some ErrNotExistsTable /\
  QueryData (Sample.client_answering Sample.response_no_table VNil)
            "select * from missing" false = Returned ([], None).
Proof.
  pose proof (QueryData_table_not_exists
                (Sample.client_answering Sample.response_no_table VNil)
                "select * from missing" false Sample.response_no_table
                (client_answering_answers _ _ _)) as [Hiff Hq].
  split; [reflexivity | apply Hq; reflexivity].
Defined.

Lemma UnescapeString_String0_witness :
  let s := String "," (String Escape.dquote (String " " "=")) in
  Escape.all_reserved s = true /\ Escape.UnescapeString (Escape.String0 s) = s.
Proof.
  split; [reflexivity | apply UnescapeString_String0; reflexivity].
Defined.

Lemma Write_skips_nil_point_witness :
  Write_points (Points Sample.batch_nil_cpu) "ms" "" =
    "cpu,host=a value=1i 1700000000000" +:+ newline /\
  Write (Sample.client_getting Sample.no_content) Sample.batch_nil_cpu = None.
Proof.
  pose proof (Write_skips_nil_point (Sample.client_getting Sample.no_content)
                Sample.batch_nil_cpu Sample.cpu_point (or_introl eq_refl))
    as (Hw & _ & Hwrite & _).
  split; [exact Hw | rewrite Hwrite; reflexivity].
Defined.

Lemma Query_decode_EOF_witness :
  client_Query (Sample.client_getting Sample.not_found_empty)
               (NewQuery "select 1" "iot" "ms") =
    (Some Response_zero,
     Some (fmt_Errorf "received status code %d from server" [ArgInt 404])) /\
  client_Query (Sample.client_getting Sample.ok_empty)
               (NewQuery "select 1" "iot" "ms") =
    (None,
     Some (fmt_Errorf "unable to decode json: received status code %d err: %s"
                      [ArgInt 200; ArgString "EOF"])).
Proof.
  split.
  - refine (proj1 (Query_decode_EOF (Sample.client_getting Sample.not_found_empty)
                     (NewQuery "select 1" "iot" "ms") _ Sample.not_found_empty "EOF"
                     eq_refl eq_refl eq_refl eq_refl) eq_refl _).
    discriminate.
  - refine (proj2 (Query_decode_EOF (Sample.client_getting Sample.ok_empty)
                     (NewQuery "select 1" "iot" "ms") _ Sample.ok_empty "EOF"
                     eq_refl eq_refl eq_refl eq_refl) _).
    right. reflexivity.
Defined.

(** C5, as the spec has it, fails: status 404 with an empty JSON body is not
    a success, [Query] returns an error next to the zero response. *)
Lemma Query_decode_EOF_counterexample :
  json_Decode (RespBody Sample.not_found_empty) = DecodeFailed "EOF" /\
  StatusCode Sample.not_found_empty <> StatusOK /\
  snd (client_Query (Sample.client_getting Sample.not_found_empty)
                    (NewQuery "select 1" "iot" "ms")) <> None.
Proof.
  split; [reflexivity |]. split; discriminate.
Qed.

Lemma SetPrecision_keeps_or_sets_witness :
  SetPrecision Sample.batch_ms "fortnight" =
    (Sample.batch_ms, Some (time_error (UnknownUnit "fortnight" "1fortnight"))) /\
  Precision (fst (SetPrecision Sample.batch_ms "")) = Precision Sample.batch_ms /\
  snd (SetPrecision Sample.batch_ms "m") = None /\
  Precision (fst (SetPrecision Sample.batch_ms "us")) = "us".
Proof.
  pose proof (SetPrecision_keeps_or_sets Sample.batch_ms "fortnight")
    as (_ & _ & _ & _ & _ & Hbad & _).
  pose proof (SetPrecision_keeps_or_sets Sample.batch_ms "")
    as (Hkeep & _ & _ & _ & _ & Hempty & _).
  pose proof (SetPrecision_keeps_or_sets Sample.batch_ms "m")
    as (_ & _ & _ & _ & Hplain & _ & _).
  pose proof (SetPrecision_keeps_or_sets Sample.batch_ms "us")
    as (_ & _ & _ & _ & _ & _ & Hunit).
  assert (Hno : forall u, plainUnit u = true -> unitMap u = None -> ~ In u durationUnits).
  { intros u _ Eu Hin. apply unitMap_durationUnits in Hin as [unit E].
    rewrite Eu in E. discriminate E. }
  split; [exact (Hbad eq_refl (Hno "fortnight" eq_refl eq_refl)) |].
  split.
  - refine (proj2 (Hkeep (time_error (MissingUnit "1")) _)).
    rewrite (Hempty eq_refl (Hno "" eq_refl eq_refl)). reflexivity.
  - split.
    + apply (proj2 (Hplain eq_refl)). do 6 right. left. reflexivity.
    + apply Hunit. right. left. reflexivity.
Defined.

(** C6, as the spec has it, fails: m and h are not among the units of the
    spec, and [SetPrecision] returns nil for them and changes the precision;
    so does a text that joins two units. *)
Lemma SetPrecision_minute_counterexample :
  ~ In "m" lineProtocolUnits /\ ~ In "h" lineProtocolUnits /\
  Precision Sample.batch_ms = "ms" /\
  SetPrecision Sample.batch_ms "m" =
    ({| points := []; database := "iot"; precision := "m";
        retentionPolicy := ""; writeConsistency := "" |}, None) /\
  snd (SetPrecision Sample.batch_ms "h") = None /\
  Precision (fst (SetPrecision Sample.batch_ms "h")) = "h" /\
  snd (SetPrecision Sample.batch_ms "s1h") = None.
Proof.
  split; [intros [E | [E | [E | [E | []]]]]; discriminate E |].
  split; [intros [E | [E | [E | [E | []]]]]; discriminate E |].
  repeat split; vm_compute; reflexivity.
Qed.

Lemma precision_accepted_iff_parses_witness :
  (exists bp', NewBatchPoints {| cfg_Precision := ""; cfg_Database := "iot" |} = inl bp' /\
               Precision bp' = "ms") /\
  (exists e, snd (SetPrecision Sample.batch_ms "") = Some e).
Proof.
  pose proof (precision_accepted_iff_parses "iot" Sample.batch_ms "")
    as (Hnew & _ & _ & Hset & _).
  split; [apply Hnew; reflexivity | apply Hset; reflexivity].
Defined.

(** C7, as the spec has it, fails: h is none of ns, us, ms, s, and both
    [SetPrecision] and [NewBatchPoints] take it. *)
Lemma precision_hour_counterexample :
  ~ In "h" lineProtocolUnits /\
  SetPrecision Sample.batch_ms "h" =
    ({| points := []; database := "iot"; precision := "h";
        retentionPolicy := ""; writeConsistency := "" |}, None) /\
  NewBatchPoints {| cfg_Precision := "h"; cfg_Database := "iot" |} =
    inl {| points := []; database := "iot"; precision := "h";
           retentionPolicy := ""; writeConsistency := "" |}.
Proof.
  split; [| split; reflexivity].
  intros [E | [E | [E | [E | []]]]]; discriminate E.
Qed.



Lemma subscribe_context_done_witness :
  (exists st',
     subscribe (Sample.world_message_then_done None) "topic" (Some Sample.open_channel)
       = Finished None st' /\
     closed (chMessage st') = true) /\
  (exists st',
     subscribe (Sample.world_message_then_done (Some (foreign_error "timeout")))
               "topic" (Some Sample.open_channel)
       = Finished (Some (foreign_error "timeout")) st' /\
     closed (chMessage st') = false).
Proof.
  split.
  - destruct (subscribe_context_done (Sample.world_message_then_done None) "topic"
                Sample.open_channel
                [ {| ctx_done := false; unsubscribe_result := None;
                     poll_result := EvMessage "m1"; send_ready := true |} ] []
                {| ctx_done := true; unsubscribe_result := None;
                   poll_result := EvNil; send_ready := true |}
                {| chMessage := {| sent := ["m1"]; closed := false |};
                   calls := [CallSubscribe "topic"; CallPoll 5000] |})
      as (st' & E & _ & _ & Hc); try reflexivity; [discriminate |].
    exists st'. split; [exact E | exact Hc].
  - destruct (subscribe_context_done
                (Sample.world_message_then_done (Some (foreign_error "timeout"))) "topic"
                Sample.open_channel
                [ {| ctx_done := false; unsubscribe_result := None;
                     poll_result := EvMessage "m1"; send_ready := true |} ] []
                {| ctx_done := true; unsubscribe_result := Some (foreign_error "timeout");
                   poll_result := EvNil; send_ready := true |}
                {| chMessage := {| sent := ["m1"]; closed := false |};
                   calls := [CallSubscribe "topic"; CallPoll 5000] |})
      as (st' & E & _ & _ & Hc); try reflexivity; [discriminate |].
    exists st'. split; [exact E | exact Hc].
Defined.

Lemma QueryData_unchecked_assertions_witness :
  QueryData (Sample.client_answering Sample.response_null_timestamp VNil)
            "select t from t" true = Panicked (TypeAssertion "string" VNil) /\
  exists res,
    QueryData (Sample.client_answering Sample.response_n_s VNil) "select n, s from t" true
      = Returned res.
Proof.
  split.
  - apply (QueryData_unchecked_assertions
             (Sample.client_answering Sample.response_null_timestamp VNil)
             "select t from t").
    apply client_answering_answers.
  - apply (proj1 (QueryData_unchecked_assertions
                    (Sample.client_answering Sample.response_n_s VNil)
                    "select n, s from t") Sample.response_n_s).
    + apply client_answering_answers.
    + split.
      * repeat constructor.
      * repeat constructor. intros [| [| [| i]]] c ri Hc Hr; cbn in Hc, Hr;
          try discriminate; injection Hc as <-; injection Hr as <-; reflexivity.
Defined.

End Examples.

(* ===================================================================== *)
(** * Further properties of the package                                  *)
(* ===================================================================== *)

Section EscapeMore.
Import Escape.

Lemma reserved_backslash : reserved backslash = false.
Proof. reflexivity. Qed.

Lemma reserved_not_backslash c : reserved c = true -> Ascii.eqb c backslash = false.
Proof.
  intros H. destruct (reserved_cases c H) as [-> | [-> | [-> | ->]]]; reflexivity.
Qed.

Lemma lookup_pair_escaper_other c t :
  reserved c = false -> lookup_pair escaper (String c t) = None.
Proof.
  unfold reserved. rewrite !orb_false_iff. intros [[[H1 H2] H3] H4].
  cbn [lookup_pair escaper HasPrefix str1].
  rewrite (Ascii.eqb_sym "," c), H1, (Ascii.eqb_sym dquote c), H2,
          (Ascii.eqb_sym " " c), H3, (Ascii.eqb_sym "=" c), H4.
  reflexivity.
Qed.

(** What the escaper does with the first byte. *)
Lemma String0_step c s :
  String0 (String c s) =
    if reserved c then String backslash (String c (String0 s))
    else String c (String0 s).
Proof.
  destruct (reserved c) eqn:Hc; [now apply String0_cons |].
  unfold String0, Replace. cbn [Replace_from].
  now rewrite (lookup_pair_escaper_other c s Hc).
Qed.

Lemma lookup_pair_unescaper_other a t :
  (Ascii.eqb a backslash = false \/
   match t with
   | String b _ => reserved b = false
   | EmptyString => True
   end) ->
  lookup_pair unescaper (String a t) = None.
Proof.
  intros Hor. cbn [lookup_pair unescaper HasPrefix str2 str1].
  rewrite (Ascii.eqb_sym backslash a).
  destruct (Ascii.eqb a backslash); [| reflexivity].
  destruct Hor as [Hf | Ht]; [discriminate |].
  destruct t as [| b t']; [reflexivity |].
  unfold reserved in Ht. rewrite !orb_false_iff in Ht. destruct Ht as [[[H1 H2] H3] H4].
  rewrite (Ascii.eqb_sym "," b), H1, (Ascii.eqb_sym dquote b), H2,
          (Ascii.eqb_sym " " b), H3, (Ascii.eqb_sym "=" b), H4.
  reflexivity.
Qed.

(** An escaped string never starts with a reserved byte. *)
Lemma String0_head s :
  match String0 s with
  | String b _ => reserved b = false
  | EmptyString => True
  end.
Proof.
  destruct s as [| c s]; [exact I |]. rewrite String0_step.
  destruct (reserved c) eqn:Hc; [reflexivity | exact Hc].
Qed.

Lemma Replace_unescaper_String0_any s : Replace unescaper (String0 s) = s.
Proof.
  induction s as [| c s IH]; [reflexivity |]. rewrite String0_step.
  destruct (reserved c) eqn:Hc.
  - now rewrite (Replace_unescaper_escaped c _ Hc), IH.
  - unfold Replace in *. cbn [Replace_from].
    rewrite (lookup_pair_unescaper_other c (String0 s) (or_intror (String0_head s))).
    now rewrite IH.
Qed.

Lemma IndexByte_ge s c : -1 <= IndexByte s c.
Proof.
  induction s as [| d s IH]; cbn [IndexByte]; [lia |].
  destruct (Ascii.eqb d c); [lia |].
  destruct (Z.eqb_spec (IndexByte s c) (-1)); lia.
Qed.

Lemma IndexByte_none_cons d s c :
  IndexByte (String d s) c = -1 -> Ascii.eqb d c = false /\ IndexByte s c = -1.
Proof.
  cbn [IndexByte]. destruct (Ascii.eqb d c); [discriminate |].
  destruct (Z.eqb_spec (IndexByte s c) (-1)) as [E | N]; [auto |].
  pose proof (IndexByte_ge s c). lia.
Qed.

Lemma Replace_unescaper_no_backslash s :
  IndexByte s backslash = -1 -> Replace unescaper s = s.
Proof.
  induction s as [| c s IH]; [reflexivity |].
  intros Hi. apply IndexByte_none_cons in Hi as [Hc Hs].
  unfold Replace in *. cbn [Replace_from].
  rewrite (lookup_pair_unescaper_other c s (or_introl Hc)). now rewrite (IH Hs).
Qed.

(** X1. Escaping loses nothing, whatever the string: unescaping the escaped
    form of any string gives the string back, also when it holds
    backslashes or bytes outside the reserved set. *)
Theorem UnescapeString_String0_any (s : string) : UnescapeString (String0 s) = s.
Proof.
  unfold UnescapeString.
  destruct (Z.eqb_spec (IndexByte (String0 s) backslash) (-1)) as [E | _].
  - rewrite <- (Replace_unescaper_no_backslash _ E) at 1.
    apply Replace_unescaper_String0_any.
  - apply Replace_unescaper_String0_any.
Qed.

(** X2. The test for a backslash in [UnescapeString] only saves work: with
    or without it the result is what the unescaper replacer gives; a string
    without a backslash is returned as it is. *)
Theorem UnescapeString_is_Replace (s : string) :
  UnescapeString s = Replace unescaper s /\
  (IndexByte s backslash = -1 -> UnescapeString s = s).
Proof.
  unfold UnescapeString.
  destruct (Z.eqb_spec (IndexByte s backslash) (-1)) as [E | N].
  - split; [now rewrite (Replace_unescaper_no_backslash s E) | reflexivity].
  - split; [reflexivity | contradiction].
Qed.

(** X3. Two strings with the same escaped form are the same string. *)
Theorem String0_injective (s1 s2 : string) : String0 s1 = String0 s2 -> s1 = s2.
Proof.
  intros E. rewrite <- (Replace_unescaper_String0_any s1), E.
  apply Replace_unescaper_String0_any.
Qed.

(** X4. In an escaped string every reserved byte comes right after a
    backslash. *)
Theorem String0_guarded (s : string) : guarded false (String0 s) = true.
Proof.
  assert (G : forall prev, guarded prev (String0 s) = true).
  { induction s as [| c s IH]; intros prev; [reflexivity |].
    rewrite String0_step. destruct (reserved c) eqn:Hc; cbn [guarded].
    - rewrite reserved_backslash, Hc, Ascii.eqb_refl. cbn. apply IH.
    - rewrite Hc. cbn. apply IH. }
  apply G.
Qed.

End EscapeMore.

Section QueryDataMore.
Import GoTime Taos TSDB.
Context `{Float64} `{Externals}.

(** What one column does to the row when the loop goes on. *)
Lemma column_Next client cv r i c row row1 :
  column client cv r i c row = Next row1 ->
  exists cn, named c cn /\
    ((cn = "_" /\ row1 = row) \/
     (cn <> "_" /\ exists v, row1 = <[cn := v]> row /\ cell_value client cv c r i v)).
Proof.
  unfold column, named, cell_value.
  destruct (negb (length c =? 3)%nat); [discriminate |].
  destruct (c !! 0%nat) as [[] |]; try discriminate.
  destruct (String.eqb_spec s "_") as [-> | Hne].
  - intros [= <-]. exists "_". split; [reflexivity | left; auto].
  - intros Hc. exists s. split; [reflexivity | right]. split; [exact Hne |].
    destruct cv.
    + destruct (c !! 1%nat) as [[] |]; try discriminate.
      destruct (r !! i) as [ri |]; [| discriminate].
      destruct (convert client s0 ri) as [p | v] eqn:Ev; [discriminate |].
      injection Hc as <-. exists v. split; [reflexivity |]. eauto.
    + destruct (r !! i) as [ri |]; [| discriminate].
      injection Hc as <-. exists ri. split; reflexivity.
Qed.

(** The keys of the row after the columns [cs]. *)
Lemma columns_keys client cv r cs : forall i row row',
  columns client cv r i cs row = Next row' ->
  forall cn, is_Some (row' !! cn) <->
             is_Some (row !! cn) \/ (cn <> "_" /\ exists c, In c cs /\ named c cn).
Proof.
  induction cs as [| c cs IH]; intros i row row'; cbn [columns].
  - intros [= <-] cn. split; [auto | intros [? | (_ & c & [] & _)]; assumption].
  - destruct (column client cv r i c row) as [row1 | |] eqn:Ec; try discriminate.
    intros Hcs cn. rewrite (IH _ _ _ Hcs cn).
    destruct (column_Next _ _ _ _ _ _ _ Ec) as (cn0 & Hn & [[-> ->] | (Hne & v & -> & _)]).
    + split.
      * intros [? | (Hc & c' & Hin & Hn')]; [auto |]. right. split; [exact Hc |].
        exists c'. split; [now right | exact Hn'].
      * intros [? | (Hc & c' & [<- | Hin] & Hn')]; [auto | |].
        -- unfold named in *. congruence.
        -- right. eauto.
    + rewrite lookup_insert_is_Some. split.
      * intros [[<- | [_ Hs]] | (Hc & c' & Hin & Hn')].
        -- right. split; [exact Hne |]. exists c. split; [now left | exact Hn].
        -- now left.
        -- right. split; [exact Hc |]. exists c'. split; [now right | exact Hn'].
      * intros [Hs | (Hc & c' & [<- | Hin] & Hn')].
        -- destruct (decide (cn0 = cn)); [left; now left | left; right; auto].
        -- left. left. unfold named in *. congruence.
        -- right. eauto.
Qed.

(** Columns none of which has the name [cn] leave the key [cn] alone. *)
Lemma columns_preserve client cv r cn cs : forall i row row',
  columns client cv r i cs row = Next row' ->
  (forall c, In c cs -> ~ named c cn) ->
  row' !! cn = row !! cn.
Proof.
  induction cs as [| c cs IH]; intros i row row'; cbn [columns].
  - now intros [= <-].
  - destruct (column client cv r i c row) as [row1 | |] eqn:Ec; try discriminate.
    intros Hcs Hno. rewrite (IH _ _ _ Hcs (fun c' Hin => Hno c' (or_intror Hin))).
    destruct (column_Next _ _ _ _ _ _ _ Ec) as (cn0 & Hn & [[-> ->] | (Hne & v & -> & _)]);
      [reflexivity |].
    apply lookup_insert_ne. intros <-. exact (Hno c (or_introl eq_refl) Hn).
Qed.

(** The value under a name is the one of the last column with that name. *)
Lemma columns_value client cv r cs : forall i row row' j c cn,
  columns client cv r i cs row = Next row' ->
  cs !! j = Some c -> named c cn -> cn <> "_" -> last_named cs j cn ->
  exists v, row' !! cn = Some v /\ cell_value client cv c r (i + j) v.
Proof.
  induction cs as [| c0 cs IH]; intros i row row' j c cn; cbn [columns]; [discriminate 2 |].
  destruct (column client cv r i c0 row) as [row1 | |] eqn:Ec; try discriminate.
  intros Hcs Hj Hn Hne Hlast. destruct j as [| j].
  - injection Hj as ->.
    destruct (column_Next _ _ _ _ _ _ _ Ec) as (cn0 & Hn0 & Hcase).
    assert (cn0 = cn) as -> by (unfold named in *; congruence).
    destruct Hcase as [[-> _] | (_ & v & -> & Hv)]; [contradiction |].
    exists v. rewrite Nat.add_0_r. split; [| exact Hv].
    rewrite (columns_preserve _ _ _ cn _ _ _ _ Hcs).
    + apply lookup_insert_eq.
    + intros c' Hin. apply list_elem_of_In, list_elem_of_lookup in Hin as [j' Hj'].
      apply (Hlast (S j') c'); [lia | exact Hj'].
  - destruct (IH (S i) row1 row' j c cn Hcs Hj Hn Hne) as (v & Hv & Hcell).
    + intros j' c' Hlt Hj'. apply (Hlast (S j') c'); [lia | exact Hj'].
    + exists v. split; [exact Hv |].
      now replace (i + S j)%nat with (S i + j)%nat by lia.
Qed.

(** The loop over the data rows returns rows and no error exactly when every
    data row goes through all the columns; the rows come in the order of the
    data. *)
Lemma rows_Forall2 client cv meta data : forall result res,
  rows client cv meta data result = Returned (res, None) <->
  exists new, res = (result ++ new)%list /\
    Forall2 (fun r row => columns client cv r 0 meta ∅ = Next row) data new.
Proof.
  induction data as [| r data IH]; intros result res; cbn [rows].
  - split.
    + intros [= <-]. exists []. rewrite app_nil_r. split; [reflexivity | constructor].
    + intros (new & -> & Hall). inversion Hall. now rewrite app_nil_r.
  - destruct (columns client cv r 0 meta ∅) as [row | x | p] eqn:Ec.
    + rewrite IH. split.
      * intros (new & -> & Hall). exists (row :: new). rewrite <- app_assoc.
        split; [reflexivity | now constructor].
      * intros (new & -> & Hall). inversion Hall as [| ? row' ? new' Hrow Hrest]; subst.
        assert (row' = row) as -> by congruence.
        exists new'. rewrite <- app_assoc. split; [reflexivity | exact Hrest].
    + split.
      * intros [= ->]. apply columns_Return in Ec. discriminate.
      * intros (new & _ & Hall). inversion Hall; congruence.
    + split; [discriminate |]. intros (new & _ & Hall). inversion Hall; congruence.
Qed.

Lemma QueryData_rows client sql cv resp res :
  answers client sql resp -> Response_Error resp = None ->
  QueryData client sql cv = Returned (res, None) ->
  Forall2 (fun r row => columns client cv r 0 (ColumnMeta resp) ∅ = Next row)
          (Data resp) res.
Proof.
  intros Ha He. rewrite (QueryData_answers _ _ _ _ Ha), He, rows_Forall2.
  now intros (new & -> & Hall).
Qed.

(** X5. When [QueryData] returns without error for a response that carries
    none, it returns one row for each data row, and the keys of every row
    are exactly the names of the columns other than the placeholder name:
    the placeholder is never a key. *)
Theorem QueryData_rows_and_keys client sql cv resp res :
  answers client sql resp -> Response_Error resp = None ->
  QueryData client sql cv = Returned (res, None) ->
  length res = length (Data resp) /\
  forall row cn, In row res ->
    (is_Some (row !! cn) <->
       cn <> "_" /\ exists c, In c (ColumnMeta resp) /\ named c cn).
Proof.
  intros Ha He Hq. pose proof (QueryData_rows _ _ _ _ _ Ha He Hq) as Hall.
  split; [symmetry; exact (Forall2_length _ _ _ Hall) |].
  intros row cn Hin.
  apply list_elem_of_In, list_elem_of_lookup in Hin as [k Hk].
  destruct (Forall2_lookup_r _ _ _ _ _ Hall Hk) as (r & _ & Hcols).
  rewrite (columns_keys _ _ _ _ _ _ _ Hcols cn), lookup_empty.
  split; [intros [[? [=]] | ?]; assumption | auto].
Qed.

(** X6. Without conversion the values pass through: in the row number [k]
    the value under a column name is the cell, in the data row number [k],
    of the last column with that name. *)
Theorem QueryData_raw_values client sql resp res k row j c cn :
  answers client sql resp -> Response_Error resp = None ->
  QueryData client sql false = Returned (res, None) ->
  res !! k = Some row ->
  ColumnMeta resp !! j = Some c -> named c cn -> cn <> "_" ->
  last_named (ColumnMeta resp) j cn ->
  exists r v, Data resp !! k = Some r /\ r !! j = Some v /\ row !! cn = Some v.
Proof.
  intros Ha He Hq Hk Hj Hn Hne Hlast.
  pose proof (QueryData_rows _ _ _ _ _ Ha He Hq) as Hall.
  destruct (Forall2_lookup_r _ _ _ _ _ Hall Hk) as (r & Hr & Hcols).
  destruct (columns_value _ _ _ _ _ _ _ _ _ _ Hcols Hj Hn Hne Hlast) as (v & Hv & Hcell).
  exists r, v. auto.
Qed.

(** X7. With conversion the value under a column name comes from the cell
    of the last column with that name, by the declared type of that column:
    for an integer type the int64 the number parses to, or the default value
    of the client when the cell is not a number; for TIMESTAMP the Unix
    seconds of the text, or the int 0 when the text does not parse; for a
    type outside the integer, float and TIMESTAMP names the cell itself. *)
Theorem QueryData_converted_values client sql resp res k row j c cn :
  answers client sql resp -> Response_Error resp = None ->
  QueryData client sql true = Returned (res, None) ->
  res !! k = Some row ->
  ColumnMeta resp !! j = Some c -> named c cn -> cn <> "_" ->
  last_named (ColumnMeta resp) j cn ->
  exists r ri ctype v,
    Data resp !! k = Some r /\ r !! j = Some ri /\
    c !! 1%nat = Some (VString ctype) /\ row !! cn = Some v /\
    (string_in ctype integer_types = true ->
       v = match ri with
           | VNumber num => VInt64 (fst (ParseInt num))
           | _ => defaultNumberValue client
           end) /\
    (ctype = "TIMESTAMP" ->
       exists s, ri = VString s /\
         v = match Parse s with
             | Some ts => VInt64 (Unix ts)
             | None => VInt 0
             end) /\
    (string_in ctype integer_types = false -> string_in ctype float_types = false ->
     ctype <> "TIMESTAMP" -> v = ri).
Proof.
  intros Ha He Hq Hk Hj Hn Hne Hlast.
  pose proof (QueryData_rows _ _ _ _ _ Ha He Hq) as Hall.
  destruct (Forall2_lookup_r _ _ _ _ _ Hall Hk) as (r & Hr & Hcols).
  destruct (columns_value _ _ _ _ _ _ _ _ _ _ Hcols Hj Hn Hne Hlast)
    as (v & Hv & ctype & ri & Ht & Hri & Hconv).
  exists r, ri, ctype, v. repeat (split; [assumption |]).
  unfold convert in Hconv. split; [| split].
  - intros Hi. rewrite Hi in Hconv. destruct ri; now injection Hconv as <-.
  - intros ->. cbn in Hconv. destruct ri; try discriminate.
    exists s. split; [reflexivity |]. destruct (Parse s); now injection Hconv as <-.
  - intros Hi Hf Hts. rewrite Hi, Hf in Hconv. apply String.eqb_neq in Hts.
    rewrite Hts in Hconv. now injection Hconv as <-.
Qed.

(** X8. An application error in the response comes first: for a response
    with an error other than the two codes of the sentinel, [QueryData]
    returns the description as the error and no row, whatever the column
    meta and the data hold. *)
Theorem QueryData_application_error client sql cv resp :
  answers client sql resp ->
  (Code resp <> 0 \/ Desc resp <> "") -> Code resp <> 9826 -> Code resp <> 9750 ->
  QueryData client sql cv = Returned ([], Some (errors_New (Desc resp))).
Proof.
  intros Ha Hnz H1 H2. rewrite (QueryData_answers _ _ _ _ Ha). unfold Response_Error.
  apply Z.eqb_neq in H1, H2. rewrite H1, H2. cbn.
  destruct Hnz as [Hc | Hd].
  - apply Z.eqb_neq in Hc. now rewrite Hc.
  - destruct (Desc resp); [contradiction |]. cbn. now rewrite orb_true_r.
Qed.

End QueryDataMore.

Section TransportMore.
Import GoTime Taos.
Context `{Float64} `{Externals}.



Lemma client_Query_Decoded (c : client) (q : Query) (req : Request)
    (resp : HTTPResponse) (r : Response) :
  createDefaultRequest c q = inl req ->
  Taos.httpClient c req = inl resp ->
  checkResponse resp = None ->
  json_Decode (RespBody resp) = Decoded r ->
  client_Query c q =
    (Some r,
     if negb (StatusCode resp =? StatusOK) && negb (isSome (Response_Error r))
     then Some (fmt_Errorf "received status code %d from server" [ArgInt (StatusCode resp)])
     else None).
Proof.
  intros Hreq Hdo Hchk Hdec. unfold client_Query. rewrite Hreq, Hdo, Hchk, Hdec.
  destruct (negb (StatusCode resp =? StatusOK) && negb (isSome (Response_Error r)));
    reflexivity.
Qed.

(** X10. [Query] does not report the application error of a decoded
    response: it returns the response, and its error is nil unless the status
    is not 200 and the response carries no application error.  So an answer
    with a status other than 200 and an application error in its body comes
    back with a nil error. *)
Theorem client_Query_decoded (c : client) (q : Query) (req : Request)
    (resp : HTTPResponse) (r : Response) :
  createDefaultRequest c q = inl req ->
  Taos.httpClient c req = inl resp ->
  checkResponse resp = None ->
  json_Decode (RespBody resp) = Decoded r ->
  fst (client_Query c q) = Some r /\
  (snd (client_Query c q) = None <->
     (StatusCode resp = StatusOK \/ Response_Error r <> None)) /\
  (StatusCode resp <> StatusOK -> Response_Error r = None ->
     snd (client_Query c q) =
       Some (fmt_Errorf "received status code %d from server" [ArgInt (StatusCode resp)])).
Proof.
  intros Hreq Hdo Hchk Hdec. unfold client_Query. rewrite Hreq, Hdo, Hchk, Hdec.
  destruct (Z.eqb_spec (StatusCode resp) StatusOK) as [E | N]; cbn [negb andb fst snd].
  - split; [reflexivity |]. split; [tauto | contradiction].
  - destruct (Response_Error r) as [e |]; cbn [isSome negb fst snd].
    + split; [reflexivity |]. split; [| discriminate 2]. split; [right; discriminate | reflexivity].
    + split; [reflexivity |]. split; [| reflexivity].
      split; [discriminate | intros [? | ?]; contradiction].
Qed.

(** X11. Once the request is made and answered and the body read, [Write]
    succeeds exactly for the status 200 or 204; for every other status its
    error is the body of the answer, as it is. *)
Theorem Write_status (c : client) (bp : batchpoints) (req : Request) (resp : HTTPResponse) :
  Write_request c bp = inl req ->
  Taos.httpClient c req = inl resp ->
  read_err (RespBody resp) = None ->
  (Write c bp = None <-> (StatusCode resp = 200 \/ StatusCode resp = 204)) /\
  (StatusCode resp <> 200 -> StatusCode resp <> 204 ->
     Write c bp = Some (errors_New (content (RespBody resp)))).
Proof.
  intros Hreq Hdo Hread. unfold Write, io_ReadAll. rewrite Hreq, Hdo, Hread.
  unfold StatusNoContent, StatusOK.
  destruct (Z.eqb_spec (StatusCode resp) 204) as [E1 | N1];
    destruct (Z.eqb_spec (StatusCode resp) 200) as [E2 | N2]; cbn [negb andb].
  all: split; [split; [intros Hw; try discriminate Hw; auto | intros; try reflexivity; lia]
              | intros; try reflexivity; lia].
Qed.

(** X12. The request of [Write] is a POST that carries the database and the
    precision of the batch as the query values db and precision, in place of
    any the address had, an empty Content-Type, the user agent of the client,
    and basic auth exactly when the user name is not empty. *)
Theorem Write_request_fields (c : client) (bp : batchpoints) (req : Request) :
  Write_request c bp = inl req ->
  Method req = "POST" /\
  Params req !! "db" = Some [Database bp] /\
  Params req !! "precision" = Some [Precision bp] /\
  Header req !! "Content-Type" = Some "" /\
  Header req !! "User-Agent" = Some (useragent c) /\
  BasicAuth req = (if String.eqb (username c) "" then None
                   else Some (username c, password c)).
Proof.
  unfold Write_request, http_NewRequest.
  destruct (http_NewRequest_error _ _); [discriminate |].
  intros [= <-].
  destruct (String.eqb (encoding c) DefaultEncoding);
    destruct (String.eqb (username c) ""); cbn;
    repeat split; try reflexivity;
    try (rewrite lookup_insert_ne by discriminate; apply lookup_insert_eq);
    try apply lookup_insert_eq.
Qed.

(** X13. Adding points adds their lines at the end: what [Write] writes for
    a batch after [AddPoints] is what it writes for the batch before,
    followed by the lines of the added points that are not nil; [AddPoint]
    is [AddPoints] with one point. *)
Theorem Write_points_AddPoints (bp : batchpoints) (ps : list (option DataPoint))
    (prec written : string) :
  Write_points (Points (AddPoints bp ps)) prec written =
    Write_points ps prec (Write_points (Points bp) prec written) /\
  Write_points (Points (AddPoints bp ps)) prec written =
    Write_points (Points bp) prec written +:+ lines_of (omap id ps) prec /\
  (forall p, AddPoint bp p = AddPoints bp [p]).
Proof.
  assert (Happ : forall l1 l2 w,
             Write_points (l1 ++ l2) prec w = Write_points l2 prec (Write_points l1 prec w)).
  { induction l1 as [| [p |] l1 IH]; intros l2 w; cbn [Write_points app];
      [reflexivity | apply IH | apply IH]. }
  split; [| split].
  - apply Happ.
  - cbn [Points AddPoints points]. rewrite Happ. apply Write_points_lines.
  - reflexivity.
Qed.


Section MadeClient.
Variable url_Parse : string -> URL + error.

Lemma NewHTTPClient_made (conf : HTTPConfig) (c : client) :
  NewHTTPClient url_Parse conf = inl c ->
  (Scheme (url c) = "http" \/ Scheme (url c) = "https") /\
  (encoding c = DefaultEncoding \/ encoding c = GzipEncoding) /\
  encoding c = WriteEncoding conf /\ useragent c <> "" /\
  Taos.httpClient c = Transport conf.
Proof.
  unfold NewHTTPClient. destruct (url_Parse (Addr conf)) as [u | err]; [| discriminate].
  destruct (String.eqb_spec (Scheme u) "http") as [Eh | Nh];
    destruct (String.eqb_spec (Scheme u) "https") as [Es | Ns]; cbn [negb andb];
    try discriminate.
  all: destruct (String.eqb_spec (WriteEncoding conf) DefaultEncoding) as [Ed | Nd];
    destruct (String.eqb_spec (WriteEncoding conf) GzipEncoding) as [Eg | Ng]; cbn [orb];
    try discriminate.
  all: intros [= <-]; cbn [url encoding useragent Taos.httpClient].
  all: repeat split; auto.
  all: destruct (String.eqb_spec (UserAgent conf) "") as [Eu | Nu]; [discriminate | exact Nu].
Qed.

(** X15. A client made by [NewHTTPClient] compresses what it declares: the
    request of [Write] has the header Content-Encoding gzip and the gzip of
    the lines as body, or no such header and the lines themselves.  (The
    encodings other than the empty one and gzip are refused when the client
    is made.) *)
Theorem NewHTTPClient_Write_encoding (conf : HTTPConfig) (c : client)
    (bp : batchpoints) (req : Request) :
  NewHTTPClient url_Parse conf = inl c ->
  Write_request c bp = inl req ->
  let written := Write_points (Points bp) (Precision bp) "" in
  (WriteEncoding conf = GzipEncoding /\
   Header req !! "Content-Encoding" = Some "gzip" /\ ReqBody req = gzip_bytes written) \/
  (WriteEncoding conf = DefaultEncoding /\
   Header req !! "Content-Encoding" = None /\ ReqBody req = written).
Proof.
  intros Hnew Hreq written.
  destruct (NewHTTPClient_made conf c Hnew) as (_ & Henc & Hconf & _ & _).
  pose proof (Write_request_body c bp req Hreq) as Hbody. cbv zeta in Hbody.
  fold written in Hbody.
  unfold Write_request, http_NewRequest in Hreq.
  destruct (http_NewRequest_error _ _); [discriminate |].
  injection Hreq as <-. rewrite <- Hconf.
  destruct Henc as [E | E]; rewrite E in *; [right | left];
    (split; [reflexivity |]); (split; [| exact Hbody]);
    destruct (String.eqb (username c) ""); cbn;
    rewrite !lookup_insert_ne by discriminate; try apply lookup_empty;
    apply lookup_insert_eq.
Qed.

(** X16. [Ping] reads the version from the first cell of the row number
    Rows - 1 of the answer and does not look at its application error: when
    Rows is not between 1 and the number of data rows, as in an answer that
    carries an error and no data, it panics on the index. *)
Theorem Ping_row_index (c : client) (resp : Response) :
  client_Query c pingQuery = (Some resp, None) ->
  ((Rows resp < 1 \/ Z.of_nat (length (Data resp)) < Rows resp) ->
     Ping c = PingPanicked (RowOutOfRange (Rows resp - 1) (length (Data resp)))) /\
  (forall row version,
     1 <= Rows resp -> Data resp !! Z.to_nat (Rows resp - 1) = Some row ->
     row !! 0%nat = Some (VString version) -> Ping c = Pong version).
Proof.
  intros Hq. unfold Ping. rewrite Hq. split.
  - intros Hr.
    destruct (Z.ltb_spec (Rows resp - 1) 0) as [? | ?]; [reflexivity |].
    destruct (Z.leb_spec (Z.of_nat (length (Data resp))) (Rows resp - 1)); [reflexivity | lia].
  - intros row version Hge Hrow Hcell.
    pose proof (lookup_lt_Some _ _ _ Hrow) as Hlt.
    destruct (Z.ltb_spec (Rows resp - 1) 0) as [? | ?]; [lia |].
    destruct (Z.leb_spec (Z.of_nat (length (Data resp))) (Rows resp - 1)); [lia |].
    cbn [orb]. now rewrite Hrow, Hcell.
Qed.

End MadeClient.

End TransportMore.

Section OptionsProps.
Import Options.

Lemma fold_options_app (l1 l2 : list DBOption) (d : DbOptions) :
  fold_left (fun opt o => o opt) (l1 ++ l2)%list d
  = fold_left (fun opt o => o opt) l2 (fold_left (fun opt o => o opt) l1 d).
Proof. apply fold_left_app. Qed.

(** X17. The options given to [newDBOptions] are applied after those of the
    environment and in the order given, so an option added at the end has
    the last word: whatever the environment holds, a database name or a
    conversion flag given last is the one in force. *)
Theorem newDBOptions_last_option (getenv : string -> string)
    (options : list DBOption) (o : DBOption) :
  newDBOptions getenv (options ++ [o])%list = o (newDBOptions getenv options) /\
  (forall d, optDatabaseName (newDBOptions getenv (options ++ [DatabaseName d])%list) = d) /\
  (forall b, optConvertNumber (newDBOptions getenv (options ++ [ConvertNumber b])%list) = b).
Proof.
  assert (G : forall o', newDBOptions getenv (options ++ [o'])%list
                         = o' (newDBOptions getenv options)).
  { intros o'. unfold newDBOptions. cbv zeta.
    replace (0 <? length (options ++ [o'])%list)%nat with true
      by (destruct options; reflexivity).
    match goal with
    | |- fold_left _ (?E ++ _)%list _ = _ => generalize E
    end.
    intros E. destruct options as [| o0 options]; cbn [length Nat.ltb Nat.leb].
    - rewrite fold_options_app. reflexivity.
    - rewrite app_assoc, fold_options_app. reflexivity. }
  split; [apply G |]. split; intros; now rewrite G.
Qed.

(** X18. Without options [newDBOptions] takes from the environment the
    address (the host with the port, 6041 when no port is set), the user,
    the password, the precision and the database name, each with its default
    when the variable is empty; the environment never turns the conversion
    on and never sets a timestamp. *)
Theorem newDBOptions_environment (getenv : string -> string) :
  let o := newDBOptions getenv [] in
  let or_default v d := if nonEmpty v then v else d in
  optDatabaseAddr o =
    (if nonEmpty (getenv envDBHost) then
       "http://" +:+ getenv envDBHost +:+ ":" +:+ or_default (getenv envDBPort) "6041"
     else "http://127.0.0.1:6041") /\
  optDatabaseUser o = or_default (getenv envDBUser) "root" /\
  optDatabasePass o = or_default (getenv envDBPass) "taosdata" /\
  optPrecisionUnit o = or_default (getenv envDBPrec) "ms" /\
  optDatabaseName o = or_default (getenv envDBName) "iot" /\
  optConvertNumber o = false /\ optTimestamp o = 0.
Proof.
  unfold newDBOptions.
  destruct (nonEmpty (getenv envDBHost)); destruct (nonEmpty (getenv envDBPort));
    destruct (nonEmpty (getenv envDBUser)); destruct (nonEmpty (getenv envDBPass));
    destruct (nonEmpty (getenv envDBPrec)); destruct (nonEmpty (getenv envDBName));
    cbn; repeat split.
Qed.

End OptionsProps.

Section PkgProps.
Import GoTime Taos TSDB Options Pkg.
Context `{Float64} `{Externals}.
Variable getenv : string -> string.
Variable clientWrapper : tsdbClient.

Lemma newDBOptions_no_conversion : optConvertNumber (newDBOptions getenv []) = false.
Proof.
  unfold newDBOptions.
  destruct (nonEmpty (getenv envDBHost)); destruct (nonEmpty (getenv envDBPort));
    destruct (nonEmpty (getenv envDBUser)); destruct (nonEmpty (getenv envDBPass));
    destruct (nonEmpty (getenv envDBPrec)); destruct (nonEmpty (getenv envDBName));
    reflexivity.
Qed.

Lemma ReadData_no_options sql :
  ReadData getenv clientWrapper sql [] = TSDB.QueryData clientWrapper sql false.
Proof. unfold ReadData. now rewrite newDBOptions_no_conversion. Qed.

(** X19. [QueryCount] counts a table that does not exist as zero: when the
    server answers with one of the two codes of the sentinel the count is 0
    and the error nil; and whenever the query fails otherwise the count is 0
    with that error. *)
Theorem QueryCount_no_table field tableName filter resp :
  answers clientWrapper (QueryCount_sql field tableName filter) resp ->
  ((Code resp = 9826 \/ Code resp = 9750) ->
     QueryCount clientWrapper field tableName filter = Returned (0, None)) /\
  (forall e, Response_Error resp = Some e -> e <> ErrNotExistsTable ->
     QueryCount clientWrapper field tableName filter = Returned (0, Some (CountErr e))).
Proof.
  intros Ha. unfold QueryCount. rewrite (QueryData_answers _ _ _ _ Ha). split.
  - intros Hc. assert (E : Response_Error resp = Some ErrNotExistsTable).
    { unfold Response_Error. destruct Hc as [-> | ->]; reflexivity. }
    now rewrite E.
  - intros e -> Hne. destruct e; try reflexivity. contradiction.
Qed.

(** X20. [QueryCount] reads the count from the first row: when the query
    returns rows and the first data row has a JSON number under the last
    column named count, the result is the int64 that number parses to, with
    the number error of the parse if there is one; when no column is named
    count the result is -1 with an error. *)
Theorem QueryCount_first_row field tableName filter resp res r data :
  answers clientWrapper (QueryCount_sql field tableName filter) resp ->
  Response_Error resp = None ->
  Data resp = r :: data ->
  TSDB.QueryData clientWrapper (QueryCount_sql field tableName filter) false
    = Returned (res, None) ->
  (forall j c num,
     ColumnMeta resp !! j = Some c -> named c "count" ->
     last_named (ColumnMeta resp) j "count" -> r !! j = Some (VNumber num) ->
     QueryCount clientWrapper field tableName filter =
       Returned (fst (ParseInt num), option_map (CountNumErr num) (snd (ParseInt num)))) /\
  ((forall c, In c (ColumnMeta resp) -> ~ named c "count") ->
     QueryCount clientWrapper field tableName filter =
       Returned (-1, Some (CountErr (errors_New "not result field: count")))).
Proof.
  intros Ha He Hd Hq.
  pose proof (QueryData_rows _ _ _ _ _ Ha He Hq) as Hall. rewrite Hd in Hall.
  inversion Hall as [| ? row ? res' Hrow Hrest]; subst.
  unfold QueryCount. rewrite Hq. split.
  - intros j c num Hj Hn Hlast Hr.
    destruct (columns_value _ _ _ _ _ _ _ _ _ _ Hrow Hj Hn ltac:(discriminate) Hlast)
      as (v & Hv & Hcell).
    cbn in Hcell. rewrite Hr in Hcell. injection Hcell as <-. now rewrite Hv.
  - intros Hno.
    assert (E : row !! "count" = None).
    { rewrite (columns_preserve _ _ _ "count" _ _ _ _ Hrow Hno). apply lookup_empty. }
    now rewrite E.
Qed.


(** X22. [CreateTopic] checks its arguments before it asks the server: an
    empty topic or content, or a mode other than the three it knows, gives
    an error whatever the client is.  And since it goes through [ReadData],
    an answer of the server with one of the two codes of the sentinel is
    reported as success. *)
Theorem CreateTopic_spec (topic content : string) (mode : Z) :
  (topic = "" \/ content = "" ->
     CreateTopic getenv clientWrapper topic content mode
       = Returned (Some (errors_New "miss args: `topic` or `content`"))) /\
  (topic <> "" -> content <> "" -> mode <> 1 -> mode <> 2 -> mode <> 3 ->
     CreateTopic getenv clientWrapper topic content mode
       = Returned (Some (fmt_Errorf "not support mode: %d" [ArgInt mode]))) /\
  (forall sql resp,
     topic <> "" -> content <> "" ->
     (mode = DBMode /\
      sql = "create topic if not exists " +:+ topic +:+ " as database " +:+ content) \/
     (mode = STMode /\
      sql = "create topic if not exists " +:+ topic +:+ " as stable " +:+ content) \/
     (mode = SQLMode /\
      sql = "create topic if not exists " +:+ topic +:+ " as " +:+ content) ->
     answers clientWrapper sql resp ->
     (Code resp = 9826 \/ Code resp = 9750) ->
     CreateTopic getenv clientWrapper topic content mode = Returned None).
Proof.
  assert (L : forall s : string, s <> "" -> (String.length s =? 0)%nat = false).
  { intros [| c s] Hs; [contradiction | reflexivity]. }
  split; [| split].
  - unfold CreateTopic. intros [-> | ->]; [reflexivity |]. now rewrite orb_true_r.
  - intros Ht Hc H1 H2 H3. unfold CreateTopic, DBMode, STMode, SQLMode.
    rewrite (L _ Ht), (L _ Hc). apply Z.eqb_neq in H1, H2, H3. now rewrite H1, H2, H3.
  - intros sql resp Ht Hc Hmode Ha Hcode. unfold CreateTopic. rewrite (L _ Ht), (L _ Hc).
    assert (E : Response_Error resp = Some ErrNotExistsTable).
    { unfold Response_Error. destruct Hcode as [-> | ->]; reflexivity. }
    destruct Hmode as [[-> ->] | [[-> ->] | [-> ->]]]; cbn [orb];
      change (DBMode =? DBMode) with true; change (STMode =? DBMode) with false;
      change (STMode =? STMode) with true; change (SQLMode =? DBMode) with false;
      change (SQLMode =? STMode) with false; change (SQLMode =? SQLMode) with true;
      cbv iota; rewrite ReadData_no_options, (QueryData_answers _ _ _ _ Ha), E;
      reflexivity.
Qed.

(** X23. The package function [QueryData] gives one column name for each
    column meta entry, in order and with the placeholder name among them,
    and all the data rows; it does not look at the application error of the
    response, and it asks for the database and the precision of the options. *)
Theorem Pkg_QueryData_columns sql opts http resp names :
  httpClient clientWrapper = Some http ->
  Client_Query http
    (NewQuery sql (optDatabaseName (newDBOptions getenv opts))
                  (optPrecisionUnit (newDBOptions getenv opts))) = (Some resp, None) ->
  Forall2 named (ColumnMeta resp) names ->
  Pkg.QueryData getenv clientWrapper sql opts = Returned (names, Data resp, None).
Proof.
  intros Hc Hq Hn. unfold Pkg.QueryData. rewrite Hc, Hq.
  assert (G : forall acc, column_names (ColumnMeta resp) acc = inr (acc ++ names)%list).
  { induction Hn as [| c cn meta names' Hcn _ IH]; intros acc; cbn [column_names].
    - now rewrite app_nil_r.
    - unfold named in Hcn. rewrite Hcn, IH, <- app_assoc. reflexivity. }
  now rewrite G.
Qed.

End PkgProps.

Section WriteDataProps.
Import GoTime Taos TSDB Options Pkg.
Context `{Float64} `{Externals}.
Variable NewPoint :
  string -> gmap string string -> gmap string GoValue -> option Time -> Point + error.

(** [time.Unix] keeps the instant and brings the nanoseconds in range. *)
Lemma time_Unix_spec sec nsec :
  UnixNano (time_Unix sec nsec) = sec * 1000000000 + nsec /\
  0 <= Time_nsec (time_Unix sec nsec) < 1000000000.
Proof.
  unfold time_Unix, UnixNano.
  pose proof (Z.quot_rem' nsec 1000000000) as Hqr.
  destruct (Z.ltb_spec nsec 0) as [Hneg | Hpos]; cbn [orb].
  - pose proof (Z.rem_bound_pos_neg nsec 1000000000 ltac:(lia) ltac:(lia)) as Hb.
    destruct (Z.ltb_spec (nsec - Z.quot nsec 1000000000 * 1000000000) 0);
      cbn [Time_sec Time_nsec]; lia.
  - destruct (Z.geb_spec nsec 1000000000) as [Hbig | Hsmall].
    + pose proof (Z.rem_bound_pos nsec 1000000000 ltac:(lia) ltac:(lia)) as Hb.
      destruct (Z.ltb_spec (nsec - Z.quot nsec 1000000000 * 1000000000) 0);
        cbn [Time_sec Time_nsec]; lia.
    + cbn [Time_sec Time_nsec]. lia.
Qed.

(** X24. [WriteData] reads its timestamp in the unit of the precision of the
    client: seconds for s, microseconds for us, nanoseconds for ns, and
    milliseconds for every other precision, those the batch takes as valid
    such as m or h among them. *)
Theorem timeOf_unit (precision : string) (ts : Z) :
  let unit :=
    if String.eqb precision "s" then 1000000000
    else if String.eqb precision "us" then 1000
    else if String.eqb precision "ns" then 1
    else 1000000 in
  UnixNano (timeOf precision ts) = ts * unit /\
  0 <= Time_nsec (timeOf precision ts) < 1000000000.
Proof.
  unfold timeOf, time_UnixMicro, time_UnixMilli.
  destruct (String.eqb precision "s"); [| destruct (String.eqb precision "us");
    [| destruct (String.eqb precision "ns")]]; cbv zeta.
  - destruct (time_Unix_spec ts 0) as [-> Hb]. split; [lia | exact Hb].
  - destruct (time_Unix_spec (Z.quot ts 1000000) (Z.rem ts 1000000 * 1000)) as [-> Hb].
    pose proof (Z.quot_rem' ts 1000000). split; [lia | exact Hb].
  - destruct (time_Unix_spec 0 ts) as [-> Hb]. split; [lia | exact Hb].
  - destruct (time_Unix_spec (Z.quot ts 1000) (Z.rem ts 1000 * 1000000)) as [-> Hb].
    pose proof (Z.quot_rem' ts 1000). split; [lia | exact Hb].
Qed.

(** X25. [WriteData] writes exactly one point: when the point can be made
    and the precision of the client is valid, the batch handed to the HTTP
    client holds that point alone, with the database and the precision of
    the client (ms for the empty precision); the point carries a time only
    for a timestamp above zero. *)
Theorem WriteData_one_point (client : tsdbClient) (http : Client) (ts : Z)
    (name : string) (tags : gmap string string) (fields : gmap string GoValue)
    (p : Point) :
  let prec := DBPrecision (dbConfig client) in
  let eff := if String.eqb prec "" then "ms" else prec in
  NewPoint name tags fields (if ts >? 0 then Some (timeOf prec ts) else None) = inl p ->
  validPrecision eff = true ->
  httpClient client = Some http ->
  TSDB.WriteData NewPoint client ts name tags fields =
    Returned (Client_Write http
                {| points := [Some {| pt := p |}];
                   database := DBName (dbConfig client); precision := eff;
                   retentionPolicy := ""; writeConsistency := "" |}).
Proof.
  intros prec eff Hp Hv Hc. unfold TSDB.WriteData, NewDataPoint. fold prec. rewrite Hp.
  destruct (NewBatchPoints_spec {| cfg_Precision := prec;
                                   cfg_Database := DBName (dbConfig client) |}) as [Hok _].
  cbn [cfg_Precision cfg_Database] in Hok. fold eff in Hok. rewrite (Hok Hv), Hc.
  reflexivity.
Qed.

(** X26. The error of [NewBatchPoints] is dropped in [WriteData]: when the
    precision of the client is not valid, the call panics on the nil batch
    as soon as the point itself can be made, and nothing is written; only
    the error of making the point is ever returned from there. *)
Theorem WriteData_invalid_precision (client : tsdbClient) (ts : Z)
    (name : string) (tags : gmap string string) (fields : gmap string GoValue) :
  let prec := DBPrecision (dbConfig client) in
  let eff := if String.eqb prec "" then "ms" else prec in
  let t := if ts >? 0 then Some (timeOf prec ts) else None in
  validPrecision eff = false ->
  (forall p, NewPoint name tags fields t = inl p ->
     TSDB.WriteData NewPoint client ts name tags fields = Panicked NilDereference) /\
  (forall err, NewPoint name tags fields t = inr err ->
     TSDB.WriteData NewPoint client ts name tags fields = Returned (Some err)).
Proof.
  intros prec eff t Hv. unfold TSDB.WriteData, NewDataPoint. fold prec. fold t.
  destruct (NewBatchPoints_spec {| cfg_Precision := prec;
                                   cfg_Database := DBName (dbConfig client) |}) as [_ Hbad].
  cbn [cfg_Precision cfg_Database] in Hbad. fold eff in Hbad.
  destruct (Hbad Hv) as [e He]. rewrite He.
  split; [intros p -> | intros err ->]; reflexivity.
Qed.

End WriteDataProps.

Section SubscribeMore.
Import TSDB.
Context {Message : Type}.

(** X27. With a channel that is open the loop does not panic, and what it
    has sent on is, in the order of polling, exactly the messages polled
    while the channel could take one: a message polled while the channel was
    full is dropped, without an error, and the loop goes on. *)
Theorem loop_forwards_in_order (ticks : list (Tick Message)) (st : State Message) :
  closed (chMessage st) = false ->
  match loop ticks st with
  | Running st' | Finished _ st' =>
      sent (chMessage st') = (sent (chMessage st) ++ forwarded ticks)%list
  | Crashed _ | Refused _ => False
  end.
Proof.
  revert st. induction ticks as [| t ticks IH]; intros st Hopen; cbn [loop forwarded].
  - now rewrite app_nil_r.
  - unfold iteration. destruct (ctx_done t).
    + destruct (unsubscribe_result t); cbn; rewrite ?Hopen; cbn; now rewrite app_nil_r.
    + cbn [call chMessage]. destruct (poll_result t) as [| m | e |].
      * apply (IH (call _ st)). exact Hopen.
      * rewrite Hopen. destruct (send_ready t).
        -- match goal with
           | |- context [loop ticks ?s] => specialize (IH s eq_refl)
           end.
           destruct (loop ticks _); try exact IH; cbn in IH |- *;
             rewrite IH, <- app_assoc; reflexivity.
        -- apply (IH (call _ st)). exact Hopen.
      * cbn. now rewrite app_nil_r.
      * apply (IH (call _ st)). exact Hopen.
Qed.

(** X28. An error from [Poll] ends the loop: [subscribe] returns that error,
    the channel is left open, and the consumer is unsubscribed and closed by
    the deferred calls. *)
Theorem subscribe_poll_error (w : World Message) (topic : string)
    (ch : Channel Message) (pre post : list (Tick Message)) (t : Tick Message)
    (st1 : State Message) (e : error) :
  topic <> "" ->
  closed ch = false ->
  newConsumer_error w = None ->
  Subscribe_error w = None ->
  ticks w = (pre ++ t :: post)%list ->
  loop pre {| chMessage := ch; calls := [CallSubscribe topic] |} = Running st1 ->
  ctx_done t = false ->
  poll_result t = EvError e ->
  exists st',
    subscribe w topic (Some ch) = Finished (Some e) st' /\
    calls st' = (calls st1 ++ [CallPoll 5000; CallUnsubscribe; CallClose])%list /\
    chMessage st' = chMessage st1 /\
    closed (chMessage st') = false.
Proof.
  intros Ht Hopen Hn Hs Hticks Hpre Hdone Hpoll.
  pose proof (loop_Running_closed _ _ _ Hpre) as Hc. cbn in Hc. rewrite Hopen in Hc.
  unfold subscribe. destruct topic as [| c0 topic']; [contradiction |].
  cbn [String.length Nat.eqb]. rewrite Hn, Hs, Hticks. unfold call at 1.
  cbn [chMessage calls app].
  rewrite loop_app, Hpre. cbn [loop]. unfold iteration. rewrite Hdone, Hpoll.
  eexists. split; [reflexivity |]. cbn. rewrite <- !app_assoc. cbn. auto.
Qed.

Lemma iteration_Return (t : Tick Message) st err st' :
  iteration t st = Return (err, st') ->
  closed (chMessage st) = false ->
  (closed (chMessage st') = true <-> err = None) /\
  exists cs, calls st' = (calls st ++ cs)%list.
Proof.
  unfold iteration. destruct (ctx_done t).
  - destruct (unsubscribe_result t) as [e |].
    + intros [= <- <-] Hopen. cbn. rewrite Hopen.
      split; [split; discriminate | eauto].
    + cbn [call chMessage]. intros Hr Hopen. rewrite Hopen in Hr.
      injection Hr as <- <-. cbn. split; [split; reflexivity | eauto].
  - cbn [call chMessage]. destruct (poll_result t) as [| m | e |]; try discriminate.
    + destruct (closed (chMessage st)); [discriminate |].
      destruct (send_ready t); discriminate.
    + intros [= <- <-] Hopen. cbn. rewrite Hopen. split; [split; discriminate | eauto].
Qed.

Lemma iteration_Next_calls (t : Tick Message) st st' :
  iteration t st = Next st' -> exists cs, calls st' = (calls st ++ cs)%list.
Proof.
  unfold iteration. destruct (ctx_done t).
  - destruct (unsubscribe_result t); [discriminate |].
    cbn. destruct (closed (chMessage st)); discriminate.
  - cbn [call chMessage]. destruct (poll_result t); try discriminate.
    + intros [= <-]. cbn. eauto.
    + destruct (closed (chMessage st)); [discriminate |].
      destruct (send_ready t); intros [= <-]; cbn; eauto.
    + intros [= <-]. cbn. eauto.
Qed.

Lemma loop_Finished (ticks : list (Tick Message)) : forall st err st',
  loop ticks st = Finished err st' ->
  closed (chMessage st) = false ->
  (closed (chMessage st') = true <-> err = None) /\
  exists cs, calls st' = (calls st ++ cs)%list.
Proof.
  induction ticks as [| t ticks IH]; intros st err st'; cbn [loop]; [discriminate |].
  destruct (iteration t st) as [st1 | [err1 st1] | p] eqn:Ei; [| | discriminate].
  - intros Hl Hopen.
    pose proof (iteration_Next_closed _ _ _ Ei) as Hc. rewrite Hopen in Hc.
    destruct (IH _ _ _ Hl Hc) as [Hiff [cs Hcs]].
    destruct (iteration_Next_calls _ _ _ Ei) as [cs1 Hcs1].
    split; [exact Hiff |]. exists (cs1 ++ cs)%list. now rewrite Hcs, Hcs1, app_assoc.
  - intros [= <- <-] Hopen. exact (iteration_Return _ _ _ _ Ei Hopen).
Qed.

(** X29. Whenever [subscribe] returns, for a channel that was open: the
    channel has been closed exactly when the error returned is nil; and once
    the consumer was made, its calls begin with [Subscribe] and end with
    [Close], so the consumer is released on every way out.  An empty topic or
    a nil channel is refused before any consumer is made. *)
Theorem subscribe_releases (w : World Message) (topic : string) (ch : Channel Message)
    (err : option error) (st : State Message) :
  subscribe w topic (Some ch) = Finished err st ->
  closed ch = false ->
  (closed (chMessage st) = true <-> err = None) /\
  (newConsumer_error w = None ->
     exists cs, calls st = (CallSubscribe topic :: cs ++ [CallClose])%list) /\
  topic <> "" /\
  (forall w', exists e, subscribe w' topic (@None (Channel Message)) = Refused e).
Proof.
  unfold subscribe. destruct topic as [| c0 topic']; [discriminate |].
  cbn [String.length Nat.eqb].
  intros Hsub Hopen.
  assert (Hrest : (closed (chMessage st) = true <-> err = None) /\
            (newConsumer_error w = None ->
             exists cs, calls st = (CallSubscribe (String c0 topic') :: cs ++ [CallClose])%list)).
  { destruct (newConsumer_error w) as [e |].
    - injection Hsub as <- <-. cbn. rewrite Hopen.
      split; [split; discriminate | discriminate].
    - destruct (Subscribe_error w) as [e |].
      + injection Hsub as <- <-. cbn. rewrite Hopen.
        split; [split; discriminate |]. intros _. exists []. reflexivity.
      + destruct (loop (ticks w) _) as [err' st' | | |] eqn:El; try discriminate.
        injection Hsub as <- <-.
        destruct (loop_Finished _ _ _ _ El Hopen) as [Hiff [cs Hcs]].
        split; [exact Hiff |]. intros _. cbn in Hcs |- *.
        exists (cs ++ [CallUnsubscribe])%list. rewrite Hcs. cbn.
        now rewrite <- !app_assoc. }
  destruct Hrest as [H1 H2]. split; [exact H1 |]. split; [exact H2 |].
  split; [discriminate |]. intros w'. eexists. reflexivity.
Qed.

End SubscribeMore.

Section HTTPQueryData.
Import GoTime Taos TSDB.
Context `{Float64} `{Externals}.

(** X30. Through the HTTP client the answer to [QueryData] is decided by
    the body before the status: for a decoded answer with one of the two
    codes of the sentinel it is no row and no error, whatever the status
    below 500; for any other application error it is that error; and for an
    answer without application error and a status other than 200 it is the
    error of the status, no row being read. *)
Theorem QueryData_over_http (c : client) (client : tsdbClient) (sql : string)
    (cv : bool) (req : Request) (resp : HTTPResponse) (r : Response) :
  httpClient client = Some (Client_of_client c) ->
  initialErr client = None ->
  createDefaultRequest c
    (NewQuery sql (DBName (dbConfig client)) (DBPrecision (dbConfig client))) = inl req ->
  Taos.httpClient c req = inl resp ->
  checkResponse resp = None ->
  json_Decode (RespBody resp) = Decoded r ->
  ((Code r = 9826 \/ Code r = 9750) -> QueryData client sql cv = Returned ([], None)) /\
  (forall e, Response_Error r = Some e -> e <> ErrNotExistsTable ->
     QueryData client sql cv = Returned ([], Some e)) /\
  (Response_Error r = None -> StatusCode resp <> StatusOK ->
     QueryData client sql cv =
       Returned ([], Some (fmt_Errorf "received status code %d from server"
                                      [ArgInt (StatusCode resp)]))) /\
  (Response_Error r = None -> StatusCode resp = StatusOK ->
     QueryData client sql cv = rows client cv (ColumnMeta r) (Data r) []).
Proof.
  intros Hc Hi Hreq Hdo Hchk Hdec.
  unfold QueryData. rewrite Hc, Hi. cbn [Client_of_client Client_Query].
  rewrite (client_Query_Decoded c _ req resp r Hreq Hdo Hchk Hdec).
  split; [| split; [| split]].
  - intros Hcode.
    assert (E : Response_Error r = Some ErrNotExistsTable).
    { unfold Response_Error. destruct Hcode as [-> | ->]; reflexivity. }
    rewrite E. cbn. now rewrite andb_false_r.
  - intros e He Hne. rewrite He. cbn. rewrite andb_false_r.
    destruct e; try reflexivity. contradiction.
  - intros He Hs. rewrite He. apply Z.eqb_neq in Hs. now rewrite Hs.
  - intros He Hs. rewrite He, Hs. reflexivity.
Qed.

End HTTPQueryData.

(* ===================================================================== *)
(** * The further properties at concrete inputs                          *)
(* ===================================================================== *)

Section MoreExamples.
Import GoTime Taos TSDB Options Pkg.
#[local] Existing Instance Sample.float64.
#[local] Existing Instance Sample.externals.

Lemma UnescapeString_is_Replace_witness :
  Escape.IndexByte "cpu" Escape.backslash = -1 /\ Escape.UnescapeString "cpu" = "cpu".
Proof.
  split; [reflexivity |]. apply (proj2 (UnescapeString_is_Replace "cpu")). reflexivity.
Defined.

Lemma String0_injective_witness :
  Escape.String0 "a b" = Escape.String0 "a b" /\ "a b" = "a b".
Proof.
  split; [reflexivity | apply String0_injective; reflexivity].
Defined.

Lemma QueryData_rows_and_keys_witness :
  exists res,
    TSDB.QueryData (Sample.client_answering Sample.response_placeholder VNil) "select * from t" true
      = Returned (res, None) /\
    length res = 1%nat /\
    forall row, In row res -> ~ is_Some (row !! "_") /\ is_Some (row !! "v").
Proof.
  eexists. split; [reflexivity |].
  destruct (QueryData_rows_and_keys
              (Sample.client_answering Sample.response_placeholder VNil)
              "select * from t" true Sample.response_placeholder _
              (client_answering_answers _ _ _) eq_refl eq_refl) as [Hlen Hkeys].
  split; [exact Hlen |]. intros row Hin. split.
  - intros Hs. apply (Hkeys row "_" Hin) in Hs as [Hne _]. now apply Hne.
  - apply (Hkeys row "v" Hin). split; [discriminate |].
    eexists. split; [right; left; reflexivity | reflexivity].
Defined.

Lemma QueryData_raw_values_witness :
  exists res row,
    TSDB.QueryData (Sample.client_answering Sample.response_n_s VNil) "select n, s from t" false
      = Returned (res, None) /\
    res !! 0%nat = Some row /\ row !! "n" = Some (VNumber "42").
Proof.
  eexists. eexists. split; [reflexivity |]. split; [reflexivity |].
  destruct (QueryData_raw_values
              (Sample.client_answering Sample.response_n_s VNil) "select n, s from t"
              Sample.response_n_s _ 0%nat _ 0%nat _ "n"
              (client_answering_answers _ _ _) eq_refl eq_refl eq_refl eq_refl eq_refl)
    as (r & v & Hr & Hv & Hrow).
  - discriminate.
  - intros [| [| j']] c' Hlt Hj'; try lia; cbn in Hj'; [| discriminate].
    injection Hj' as <-. discriminate.
  - injection Hr as <-. injection Hv as <-. exact Hrow.
Defined.

Lemma QueryData_converted_values_witness :
  exists res row,
    TSDB.QueryData (Sample.client_answering Sample.response_n_s VNil) "select n, s from t" true
      = Returned (res, None) /\
    res !! 0%nat = Some row /\ row !! "n" = Some (VInt64 42).
Proof.
  destruct (TSDB.QueryData (Sample.client_answering Sample.response_n_s VNil)
              "select n, s from t" true) as [[[| row res] [e |]] | p] eqn:Hq;
    try (exfalso; vm_compute in Hq; discriminate Hq).
  exists (row :: res), row. split; [reflexivity |]. split; [reflexivity |].
  destruct (QueryData_converted_values
              (Sample.client_answering Sample.response_n_s VNil) "select n, s from t"
              Sample.response_n_s (row :: res) 0%nat row 0%nat _ "n"
              (client_answering_answers _ _ _) eq_refl Hq eq_refl eq_refl eq_refl)
    as (r & ri & ctype & v & Hr & Hri & Hct & Hrow & Hint & _).
  - discriminate.
  - intros [| [| j']] c' Hlt Hj'; try lia; cbn in Hj'; [| discriminate].
    injection Hj' as <-. discriminate.
  - injection Hr as <-. injection Hri as <-. injection Hct as <-.
    rewrite Hrow. f_equal. apply Hint. reflexivity.
Defined.

Lemma QueryData_application_error_witness :
  TSDB.QueryData (Sample.client_answering Sample.response_auth_failure VNil) "select 1" true
    = Returned ([], Some (errors_New "Authentication failure")).
Proof.
  apply (QueryData_application_error _ _ _ Sample.response_auth_failure).
  - apply client_answering_answers.
  - left. discriminate.
  - discriminate.
  - discriminate.
Defined.


Lemma Write_status_witness :
  Write (Sample.client_getting Sample.bad_request_text) Sample.batch_nil_cpu
    = Some (errors_New "unable to parse points").
Proof.
  refine (proj2 (Write_status (Sample.client_getting Sample.bad_request_text)
                   Sample.batch_nil_cpu _ Sample.bad_request_text
                   eq_refl eq_refl eq_refl) _ _); discriminate.
Defined.

Lemma Write_request_fields_witness :
  exists req,
    Write_request (Sample.client_getting Sample.no_content) Sample.batch_nil_cpu = inl req /\
    Params req !! "db" = Some ["iot"] /\ Params req !! "precision" = Some ["ms"] /\
    BasicAuth req = Some ("root", "taosdata").
Proof.
  eexists. split; [reflexivity |].
  destruct (Write_request_fields (Sample.client_getting Sample.no_content)
              Sample.batch_nil_cpu _ eq_refl) as (_ & Hdb & Hprec & _ & _ & Hauth).
  split; [exact Hdb |]. split; [exact Hprec | exact Hauth].
Defined.


Lemma NewHTTPClient_Write_encoding_witness :
  exists c req,
    NewHTTPClient Sample.url_Parse Sample.config_gzip = inl c /\
    Write_request c Sample.batch_nil_cpu = inl req /\
    Header req !! "Content-Encoding" = Some "gzip" /\
    ReqBody req = "gzip:cpu,host=a value=1i 1700000000000" +:+ newline.
Proof.
  eexists. eexists. split; [reflexivity |]. split; [reflexivity |].
  destruct (NewHTTPClient_Write_encoding Sample.url_Parse Sample.config_gzip _
              Sample.batch_nil_cpu _ eq_refl eq_refl) as [(_ & Hh & Hb) | (Hd & _ & _)].
  - split; [exact Hh | exact Hb].
  - discriminate Hd.
Defined.

End MoreExamples.

Section DecodedExamples.
Import GoTime Taos TSDB.

Lemma client_Query_decoded_witness :
  @client_Query Sample.externals_no_table
     (Sample.client_getting Sample.bad_request_json) (NewQuery "select 1" "iot" "ms")
  = (Some Sample.response_no_table, None).
Proof.
  destruct (@client_Query_decoded Sample.externals_no_table
              (Sample.client_getting Sample.bad_request_json)
              (NewQuery "select 1" "iot" "ms") _ Sample.bad_request_json
              Sample.response_no_table eq_refl eq_refl eq_refl eq_refl)
    as (Hfst & Hnil & _).
  assert (Hne : Response_Error Sample.response_no_table <> None) by discriminate.
  assert (Hsnd := proj2 Hnil (or_intror Hne)).
  destruct (@client_Query Sample.externals_no_table
              (Sample.client_getting Sample.bad_request_json)
              (NewQuery "select 1" "iot" "ms")) as [r e].
  cbn [fst snd] in Hfst, Hsnd. rewrite Hfst, Hsnd. reflexivity.
Defined.

Lemma QueryData_over_http_witness :
  @QueryData Sample.float64 Sample.externals_no_table
     (Sample.client_over Sample.externals_no_table
        (Sample.client_getting Sample.bad_request_json)) "select * from missing" true
  = Returned ([], None).
Proof.
  refine (proj1 (@QueryData_over_http Sample.float64 Sample.externals_no_table
                   (Sample.client_getting Sample.bad_request_json)
                   (Sample.client_over Sample.externals_no_table
                      (Sample.client_getting Sample.bad_request_json))
                   "select * from missing" true _ Sample.bad_request_json
                   Sample.response_no_table
                   eq_refl eq_refl eq_refl eq_refl eq_refl eq_refl) _).
  left. reflexivity.
Defined.

Lemma Ping_row_index_witness :
  @Ping Sample.externals_auth_failure (Sample.client_getting Sample.ok_json)
    = PingPanicked (RowOutOfRange (-1) 0) /\
  @Ping Sample.externals_version (Sample.client_getting Sample.ok_json) = Pong "3.3.0.0".
Proof.
  split.
  - refine (proj1 (@Ping_row_index Sample.externals_auth_failure
                     (Sample.client_getting Sample.ok_json)
                     Sample.response_auth_failure eq_refl) _).
    left. reflexivity.
  - refine (proj2 (@Ping_row_index Sample.externals_version
                     (Sample.client_getting Sample.ok_json)
                     Sample.response_version eq_refl) _ "3.3.0.0" _ eq_refl eq_refl).
    cbn. lia.
Defined.

End DecodedExamples.

Section PkgExamples.
Import GoTime Taos TSDB Options Pkg.
#[local] Existing Instance Sample.float64.
#[local] Existing Instance Sample.externals.

Lemma QueryCount_no_table_witness :
  QueryCount (Sample.client_answering Sample.response_no_table VNil) "ts" "missing" ""
    = Returned (0, None) /\
  QueryCount (Sample.client_answering Sample.response_auth_failure VNil) "ts" "meters" ""
    = Returned (0, Some (CountErr (errors_New "Authentication failure"))).
Proof.
  split.
  - apply (proj1 (QueryCount_no_table
                    (Sample.client_answering Sample.response_no_table VNil)
                    "ts" "missing" "" Sample.response_no_table
                    (client_answering_answers _ _ _))).
    left. reflexivity.
  - apply (proj2 (QueryCount_no_table
                    (Sample.client_answering Sample.response_auth_failure VNil)
                    "ts" "meters" "" Sample.response_auth_failure
                    (client_answering_answers _ _ _))).
    + reflexivity.
    + discriminate.
Defined.

Lemma QueryCount_first_row_witness :
  QueryCount (Sample.client_answering (Sample.response_count "7") VNil)
             "ts" "meters" "where ts > 0"
    = Returned (7, None) /\
  QueryCount (Sample.client_answering Sample.response_n_s VNil) "n" "t" ""
    = Returned (-1, Some (CountErr (errors_New "not result field: count"))).
Proof.
  split.
  - refine (proj1 (QueryCount_first_row
                     (Sample.client_answering (Sample.response_count "7") VNil)
                     "ts" "meters" "where ts > 0" (Sample.response_count "7")
                     _ _ _ (client_answering_answers _ _ _) eq_refl eq_refl eq_refl)
                  0%nat _ "7" eq_refl eq_refl _ eq_refl).
    intros [| j'] c' Hlt Hj'; [lia | discriminate].
  - refine (proj2 (QueryCount_first_row
                     (Sample.client_answering Sample.response_n_s VNil)
                     "n" "t" "" Sample.response_n_s
                     _ _ _ (client_answering_answers _ _ _) eq_refl eq_refl eq_refl) _).
    intros c [<- | [<- | []]]; discriminate.
Defined.


Lemma CreateTopic_spec_witness :
  CreateTopic Sample.getenv_empty (Sample.client_answering Sample.response_no_table VNil)
              "t1" "power.meters" STMode = Returned None /\
  CreateTopic Sample.getenv_empty (Sample.client_answering Sample.response_no_table VNil)
              "t1" "power.meters" 7
    = Returned (Some (fmt_Errorf "not support mode: %d" [ArgInt 7])).
Proof.
  pose proof (CreateTopic_spec Sample.getenv_empty
                (Sample.client_answering Sample.response_no_table VNil)
                "t1" "power.meters") as Hspec.
  split.
  - refine (proj2 (proj2 (Hspec STMode)) _ Sample.response_no_table _ _ _
                  (client_answering_answers _ _ _) _).
    + discriminate.
    + discriminate.
    + right. left. split; reflexivity.
    + left. reflexivity.
  - apply (proj1 (proj2 (Hspec 7))); discriminate.
Defined.

Lemma Pkg_QueryData_columns_witness :
  Pkg.QueryData Sample.getenv_db
                (Sample.client_answering Sample.response_placeholder VNil)
                "select * from t" []
    = Returned (["_"; "v"], [ [VNumber "1"; VNumber "2.5"] ], None).
Proof.
  refine (Pkg_QueryData_columns Sample.getenv_db
            (Sample.client_answering Sample.response_placeholder VNil)
            "select * from t" [] _ Sample.response_placeholder ["_"; "v"]
            eq_refl eq_refl _).
  repeat constructor.
Defined.

Lemma WriteData_one_point_witness :
  TSDB.WriteData Sample.NewPoint (Sample.client_with_precision "") 1700000000000 "cpu" ∅ ∅
    = Returned None.
Proof.
  rewrite (@WriteData_one_point Sample.float64 Sample.externals Sample.NewPoint
             (Sample.client_with_precision "") _
             1700000000000 "cpu" ∅ ∅ "cpu" eq_refl eq_refl eq_refl).
  reflexivity.
Defined.

Lemma WriteData_invalid_precision_witness :
  TSDB.WriteData Sample.NewPoint (Sample.client_with_precision "sec") 0 "cpu" ∅ ∅
    = Panicked NilDereference /\
  TSDB.WriteData Sample.NewPoint (Sample.client_with_precision "sec") 0 "" ∅ ∅
    = Returned (Some (errors_New "point without name is unsupported")).
Proof.
  split.
  - apply (proj1 (@WriteData_invalid_precision Sample.float64 Sample.externals
                    Sample.NewPoint (Sample.client_with_precision "sec") 0 "cpu" ∅ ∅ eq_refl) "cpu").
    reflexivity.
  - apply (proj2 (@WriteData_invalid_precision Sample.float64 Sample.externals
                    Sample.NewPoint (Sample.client_with_precision "sec") 0 "" ∅ ∅ eq_refl)).
    reflexivity.
Defined.

Lemma loop_forwards_in_order_witness :
  exists st',
    loop Sample.ticks_send_drop_error
         {| chMessage := Sample.open_channel; calls := [] |}
      = Finished (Some (foreign_error "connection lost")) st' /\
    sent (chMessage st') = ["m1"].
Proof.
  eexists. split; [reflexivity |].
  exact (loop_forwards_in_order Sample.ticks_send_drop_error
           {| chMessage := Sample.open_channel; calls := [] |} eq_refl).
Defined.

Lemma subscribe_poll_error_witness :
  exists st',
    subscribe Sample.world_send_drop_error "topic" (Some Sample.open_channel)
      = Finished (Some (foreign_error "connection lost")) st' /\
    closed (chMessage st') = false.
Proof.
  destruct (subscribe_poll_error Sample.world_send_drop_error "topic" Sample.open_channel
              (firstn 2 Sample.ticks_send_drop_error) []
              {| ctx_done := false; unsubscribe_result := None;
                 poll_result := EvError (foreign_error "connection lost");
                 send_ready := true |}
              {| chMessage := {| sent := ["m1"]; closed := false |};
                 calls := [CallSubscribe "topic"; CallPoll 5000; CallPoll 5000] |}
              (foreign_error "connection lost"))
    as (st' & E & _ & _ & Hc); try reflexivity; [discriminate |].
  exists st'. split; [exact E | exact Hc].
Defined.

Lemma subscribe_releases_witness :
  exists st cs,
    subscribe (Sample.world_message_then_done None) "topic" (Some Sample.open_channel)
      = Finished None st /\
    closed (chMessage st) = true /\
    calls st = (CallSubscribe "topic" :: cs ++ [CallClose])%list.
Proof.
  destruct (subscribe (Sample.world_message_then_done None) "topic"
                      (Some Sample.open_channel)) as [err st | | |] eqn:E;
    try discriminate E.
  assert (err = None) as -> by (vm_compute in E; congruence).
  destruct (subscribe_releases _ _ _ _ _ E eq_refl) as (Hiff & Hcalls & _ & _).
  destruct (Hcalls eq_refl) as [cs Hcs].
  exists st, cs. split; [reflexivity |]. split; [now apply Hiff | exact Hcs].
Defined.

End PkgExamples.
